(** * tiled/server/authentication.py: token issuance, decoding and principal resolution

    A shallow embedding of the authentication module of the tiled server and
    the properties of its token lifecycle.  Python dictionaries are finite
    maps with string keys, exceptions are results, the wall clock, the random
    source and the request's list of cookies to set are threaded as state.

    Conventions on numbers: a [datetime] and a POSIX timestamp are held in
    whole microseconds (the resolution of [datetime] and [timedelta]); a
    [timedelta] is a number of microseconds.  A [datetime] lies between the
    years 1 and 9999 and a [timedelta] within 999999999 days: building one
    out of range raises. *)

From Stdlib Require Import ZArith QArith Lia.
From stdpp Require Import base option list strings gmap.

Close Scope Q_scope.
Open Scope Z_scope.

(** ** Python values held in a claims dictionary *)

Inductive JVal :=
| JStr (s : string)
| JInt (n : Z)
| JFloat (us : Z)      (* a float number of seconds, in microseconds *)
| JDatetime (us : Z).  (* a naive datetime, microseconds since the epoch *)

#[global] Instance JVal_eq_dec : EqDecision JVal.
Proof. solve_decision. Defined.

Abbreviation Payload := (gmap string JVal).

(** Python truth value, as used by [x or y] and [not x]. *)
Definition truthy (v : JVal) : bool :=
  match v with
  | JStr s => negb (String.eqb s "")
  | JInt n => negb (n =? 0)
  | JFloat us => negb (us =? 0)
  | JDatetime _ => true
  end.

(** ** Exceptions and results *)

Inductive Exn :=
| HTTPException (status_code : Z) (detail : string) (headers : list (string * string))
| ExpiredSignatureError
| JWTError
| KeyError (key : string)
| IndexError
| TypeError
| OverflowError
| ValueError.

Inductive Result (A : Type) :=
| Ok (a : A)
| Raise (e : Exn).
Arguments Ok {A} a.
Arguments Raise {A} e.

(** ** Ranges of [datetime] and [timedelta] *)

Definition DAY : Z := 86400000000.

(** [datetime.min] and [datetime.max], in microseconds since the epoch:
    0001-01-01 00:00:00 and 9999-12-31 23:59:59.999999. *)
Definition DATETIME_MIN : Z := -62135596800000000.
Definition DATETIME_MAX : Z := 253402300799999999.

(** [timedelta.min] and [timedelta.max]: minus 999999999 days, and 999999999
    days, 23 hours, 59 minutes, 59.999999 seconds. *)
Definition TIMEDELTA_MIN : Z := -999999999 * DAY.
Definition TIMEDELTA_MAX : Z := 999999999 * DAY + (DAY - 1).

Definition datetime_in_range (d : Z) : bool :=
  (DATETIME_MIN <=? d) && (d <=? DATETIME_MAX).

Definition timedelta_in_range (us : Z) : bool :=
  (TIMEDELTA_MIN <=? us) && (us <=? TIMEDELTA_MAX).

(** ** The state a handler runs in

    [system_clock w n] is what the system clock holds at the [n]-th call of
    [datetime.utcnow()], [os_urandom w n] the integer held by the [n]-th draw
    of 16 random bytes, [cookies_to_set] is
    [request.state.cookies_to_set]. *)

Record World := mkWorld {
  system_clock : nat -> Z;
  clock_reads : nat;
  os_urandom : nat -> Z;
  urandom_reads : nat;
  cookies_to_set : list (string * option string)
}.

(** What the [n]-th call of [datetime.utcnow()] returns: a datetime.  The
    reading is taken at least two days inside the range of datetime, so that
    the local time of a reading is a datetime too. *)
Definition utc_clock (w : World) (n : nat) : Z :=
  Z.max (DATETIME_MIN + 2 * DAY)
        (Z.min (DATETIME_MAX - 2 * DAY) (system_clock w n)).

Definition M (A : Type) : Type := World -> Result A * World.

Definition ret {A} (a : A) : M A := fun w => (Ok a, w).
Definition raise {A} (e : Exn) : M A := fun w => (Raise e, w).
Definition bind {A B} (m : M A) (k : A -> M B) : M B :=
  fun w => match m w with
           | (Ok a, w') => k a w'
           | (Raise e, w') => (Raise e, w')
           end.

(** What a computation returns or raises in the state [w]. *)
Definition run {A} (m : M A) (w : World) : Result A := fst (m w).

Notation "'let*' x ':=' m 'in' k" := (bind m (fun x => k))
  (at level 10, x name, m at level 100, k at level 200).

(** [datetime.utcnow()] *)
Definition utcnow : M Z :=
  fun w => (Ok (utc_clock w (clock_reads w)),
            mkWorld (system_clock w) (S (clock_reads w)) (os_urandom w)
                    (urandom_reads w) (cookies_to_set w)).

(** [uuid.UUID(bytes=..., version=4).int] on the integer [r] of the bytes:
    the variant bits are set to binary 10 and the version nibble to 4. *)
Definition uuid_v4_int (r : Z) : Z :=
  Z.lor
    (Z.land
       (Z.lor (Z.land r (Z.lnot (Z.shiftl 0xc000 48))) (Z.shiftl 0x8000 48))
       (Z.lnot (Z.shiftl 0xf000 64)))
    (Z.shiftl 4 76).

(** [uuid.uuid4().int] *)
Definition uuid4_int : M Z :=
  fun w => (Ok (uuid_v4_int (os_urandom w (urandom_reads w))),
            mkWorld (system_clock w) (clock_reads w) (os_urandom w)
                    (S (urandom_reads w)) (cookies_to_set w)).

(** [request.state.cookies_to_set.append(c)] *)
Definition append_cookie_to_set (c : string * option string) : M unit :=
  fun w => (Ok tt,
            mkWorld (system_clock w) (clock_reads w) (os_urandom w)
                    (urandom_reads w) (cookies_to_set w ++ [c])).

(** [d[k]] *)
Definition getitem (d : Payload) (k : string) : M JVal :=
  match d !! k with
  | Some v => ret v
  | None => raise (KeyError k)
  end.

(** The number of seconds a value stands for in arithmetic with a float,
    in microseconds; a string or a datetime stands for none. *)
Definition seconds (v : JVal) : option Z :=
  match v with
  | JInt n => Some (n * 1000000)
  | JFloat us => Some us
  | _ => None
  end.

Definition number (v : JVal) : M Z :=
  match seconds v with
  | Some us => ret us
  | None => raise TypeError
  end.

(** [l[0]] *)
Definition first_item {A} (l : list A) : M A :=
  match l with
  | x :: _ => ret x
  | [] => raise IndexError
  end.

(** [timedelta(seconds=s)]: the duration, [OverflowError] when it is out of
    the range of timedelta. *)
Definition timedelta_seconds (us : Z) : M Z :=
  if timedelta_in_range us then ret us else raise OverflowError.

(** [a / b] on two timedeltas, as an exact ratio. *)
Definition timedelta_truediv (a b : Z) : Q := Qdiv (inject_Z a) (inject_Z b).

(** ** What the module imports from outside the repository

    python-jose's [jwt.encode] and [jwt.decode] ([decode] reads the clock to
    check an [exp] claim, and raises [ExpiredSignatureError] or another
    [JWTError]), and the local time zone: [utcoffset d] is the UTC offset in
    force at the naive local datetime [d], and [fromtimestamp t] the naive
    local datetime of the timestamp [t]. *)

Class Runtime := {
  Key : Type;
  Key_eq_dec : EqDecision Key;
  Token : Type;
  jwt_encode : Payload -> Key -> string -> Token;
  jwt_decode : Token -> Key -> list string -> M Payload;
  utcoffset : Z -> Z;
  fromtimestamp : Z -> Z
}.

#[global] Existing Instance Key_eq_dec.

(** [d.timestamp()] on a naive datetime: [d] is read as local time, so the
    result is [d] less the UTC offset in force, which lies strictly between
    minus and plus 24 hours.  The conversion is taken to succeed on every
    datetime, as it does where the platform's local-time functions cover the
    range of datetime. *)
Definition timestamp {R : Runtime} (d : Z) : Z :=
  d - Z.max (1 - DAY) (Z.min (DAY - 1) (utcoffset d)).

(** [datetime.fromtimestamp(t)]: the local datetime, an error when it is out
    of the range of datetime ([ValueError] for a year out of range; a
    platform may raise [OverflowError] or [OSError] instead). *)
Definition datetime_fromtimestamp {R : Runtime} (t : Z) : M Z :=
  if datetime_in_range (fromtimestamp t) then ret (fromtimestamp t)
  else raise ValueError.

(** ** The module *)

Section Authentication.
Context {R : Runtime}.

Definition ALGORITHM : string := "HS256".
Definition UNIT_SECOND : Z := 1000000.
Definition API_KEY_COOKIE_NAME : string := "tiled_api_key".
Definition API_KEY_HEADER_NAME : string := "x-tiled-api-key".
Definition API_KEY_QUERY_PARAMETER : string := "api_key".
Definition CSRF_COOKIE_NAME : string := "tiled_csrf".

(** Modelled from the spec: the settings object ([tiled/server/settings.py]
    is not part of the sources): an ordered secret list, the access-token and
    refresh-token max ages, an optional session max age, the anonymous-access
    flag and an optional single-user API key. *)
Record Settings := mkSettings {
  secret_keys : list Key;
  access_token_max_age : Z;
  refresh_token_max_age : Z;
  session_max_age : option Z;
  allow_anonymous_access : bool;
  single_user_api_key : option string
}.

(** Modelled from the spec: [SpecialUsers] ([tiled/utils.py] is not part of
    the sources): the sentinel "admin" and the sentinel "public", members of
    a closed set of their own. *)
Inductive SpecialUsers :=
| admin
| public.

(** What [get_current_user] returns: a member of [SpecialUsers], or the
    value of [payload.get("sub")]. *)
Inductive User :=
| Special (s : SpecialUsers)
| Named (sub : option JVal).

(** The authenticator capability: [authenticate] returns the username, or
    a false value. *)
Record Authenticator := mkAuthenticator {
  authenticate : string -> string -> option string
}.

(** [not username] on what [authenticate] returned. *)
Definition not_username (u : option string) : bool :=
  match u with
  | Some s => negb (truthy (JStr s))
  | None => true
  end.

Record OAuth2PasswordRequestForm := mkForm {
  username : string;
  password : string
}.

Record Request := mkRequest {
  query_params : gmap string string;
  headers : gmap string string;
  cookies : gmap string string
}.

(** The [APIKeyQuery], [APIKeyHeader] and [APIKeyCookie] schemes with
    [auto_error=False]: the value under the scheme's name, [None] when it is
    missing or empty. *)
Definition api_key_scheme (value : option string) : option string :=
  match value with
  | Some v => if truthy (JStr v) then Some v else None
  | None => None
  end.

Definition api_key_query (request : Request) : option string :=
  api_key_scheme (query_params request !! "api_key").
Definition api_key_header (request : Request) : option string :=
  api_key_scheme (headers request !! API_KEY_HEADER_NAME).
Definition api_key_cookie (request : Request) : option string :=
  api_key_scheme (cookies request !! "tiled_api_key").

Record AccessAndRefreshTokens := mkTokens {
  access_token : Token;
  expires_in : Q;
  refresh_token : Token;
  refresh_token_expires_in : Q;
  token_type : string
}.

(** The expiry [datetime.utcnow() + expires_delta] is taken as the plain sum:
    a configured max age that carries a clock reading past [datetime.max]
    (some 8000 years) is not modelled. *)
Definition create_access_token (data : Payload) (expires_delta : Z)
    (secret_key : Key) : M Token :=
  let to_encode := data in
  let* now := utcnow in
  let expire := now + expires_delta in
  let to_encode :=
    <["type" := JStr "access"]> (<["exp" := JDatetime expire]> to_encode) in
  ret (jwt_encode to_encode secret_key ALGORITHM).

Definition create_refresh_token (data : Payload) (secret_key : Key)
    (session_id : option JVal) (session_creation_time : option Z) : M Token :=
  let to_encode := data in
  let* issued_at_time := utcnow in
  let* session_id :=
    match session_id with
    | Some v => if truthy v then ret v
                else let* u := uuid4_int in ret (JInt u)
    | None => let* u := uuid4_int in ret (JInt u)
    end in
  let session_creation_time :=
    match session_creation_time with
    | Some t => t
    | None => issued_at_time
    end in
  let to_encode :=
    <["sct" := JFloat (timestamp session_creation_time)]>
      (<["sid" := session_id]>
         (<["iat" := JFloat (timestamp issued_at_time)]>
            (<["type" := JStr "refresh"]> to_encode))) in
  ret (jwt_encode to_encode secret_key ALGORITHM).

Definition credentials_exception : Exn :=
  HTTPException 401 "Could not validate credentials"
    [("WWW-Authenticate", "Bearer")].

Definition access_token_expired : Exn :=
  HTTPException 401 "Access token has expired." [].

(** The [for ... else] loop of [decode_token]. *)
Fixpoint decode_with_keys (token : Token) (secret_keys : list Key) : M Payload :=
  match secret_keys with
  | [] => raise credentials_exception
  | secret_key :: rest =>
      fun w =>
        match jwt_decode token secret_key [ALGORITHM] w with
        | (Ok payload, w') => (Ok payload, w')
        | (Raise ExpiredSignatureError, w') =>
            (Raise access_token_expired, w')
        | (Raise JWTError, w') => decode_with_keys token rest w'
        | (Raise e, w') => (Raise e, w')
        end
  end.

Definition decode_token (token : Token) (secret_keys : list Key)
    (expected_type : string) : M Payload :=
  let* payload := decode_with_keys token secret_keys in
  if decide (payload !! "type" = Some (JStr expected_type))
  then ret payload
  else raise credentials_exception.

Definition invalid_api_key : Exn := HTTPException 401 "Invalid API key" [].

Definition check_api_keys (api_keys : list (option string))
    (settings : Settings) : M bool :=
  (fix loop (l : list (option string)) : M bool :=
     match l with
     | [] => ret false
     | None :: rest => loop rest
     | Some api_key :: _ =>
         if decide (Some api_key = single_user_api_key settings)
         then ret true
         else raise invalid_api_key
     end) api_keys.

Definition check_single_user_api_key (api_key_query api_key_header
    api_key_cookie : option string) (settings : Settings) : M bool :=
  check_api_keys [api_key_query; api_key_header; api_key_cookie] settings.

(** The first non-absent value in the priority order query, header, cookie,
    in the words of the specification; the loop above is compared with it. *)
Definition first_present (q h c : option string) : option string :=
  match q, h with
  | Some v, _ => Some v
  | None, Some v => Some v
  | None, None => c
  end.

(** The claims [create_access_token] encodes for [data = {"sub": sub}]. *)
Definition access_claims (sub : JVal) (exp : Z) : Payload :=
  <["type" := JStr "access"]> (<["exp" := JDatetime exp]> {["sub" := sub]}).

(** The claims [create_refresh_token] encodes for [data = {"sub": sub}]. *)
Definition refresh_claims (sub sid : JVal) (iat sct : Z) : Payload :=
  <["sct" := JFloat sct]>
    (<["sid" := sid]>
       (<["iat" := JFloat iat]>
          (<["type" := JStr "refresh"]> {["sub" := sub]}))).

(** The attempts of the loop on [secret_keys] all raised a [JWTError] that
    is not an expiry, and left the state [w']. *)
Inductive key_mismatches (token : Token) : list Key -> World -> World -> Prop :=
| mismatches_nil w : key_mismatches token [] w w
| mismatches_cons secret_key rest w w1 w' :
    jwt_decode token secret_key [ALGORITHM] w = (Raise JWTError, w1) ->
    key_mismatches token rest w1 w' ->
    key_mismatches token (secret_key :: rest) w w'.

Definition get_current_user (request : Request) (token : option Token)
    (has_single_user_api_key : bool) (settings : Settings)
    (authenticator : option Authenticator) : M User :=
  if bool_decide (authenticator = None) && has_single_user_api_key then
    let* _ :=
      if decide (cookies request !! API_KEY_COOKIE_NAME
                 = single_user_api_key settings)
      then ret tt
      else append_cookie_to_set
             (API_KEY_COOKIE_NAME, single_user_api_key settings) in
    ret (Special admin)
  else
    match token with
    | None =>
        if allow_anonymous_access settings
        then ret (Special public)
        else raise (HTTPException 401 "Not authenticated" [])
    | Some token =>
        let* payload := decode_token token (secret_keys settings) "access" in
        ret (Named (payload !! "sub"))
    end.

Definition login_for_access_token (form_data : OAuth2PasswordRequestForm)
    (authenticator : option Authenticator) (settings : Settings)
    : M AccessAndRefreshTokens :=
  match authenticator with
  | None =>
      let msg :=
        if allow_anonymous_access settings
        then "This is a public Tiled server with no login."
        else "This is a single-user Tiled server. To authenticate, use the API key logged at server startup." in
      raise (HTTPException 404 msg [])
  | Some authenticator =>
      let name :=
        authenticate authenticator (username form_data) (password form_data) in
      if not_username name then
        raise (HTTPException 401 "Incorrect username or password"
                 [("WWW-Authenticate", "Bearer")])
      else
        (* [name] is a non-empty string here *)
        let sub := from_option JStr (JStr "") name in
        let* secret_key := first_item (secret_keys settings) in
        let* access :=
          create_access_token {["sub" := sub]}
            (access_token_max_age settings) secret_key in
        let* secret_key := first_item (secret_keys settings) in
        let* refresh' :=
          create_refresh_token {["sub" := sub]} secret_key None None in
        ret (mkTokens access
               (timedelta_truediv (access_token_max_age settings) UNIT_SECOND)
               refresh'
               (timedelta_truediv (refresh_token_max_age settings) UNIT_SECOND)
               "bearer")
  end.

Definition session_expired : Exn :=
  HTTPException 401 "Session has expired. Please re-authenticate." [].

Definition refresh (token : Token) (settings : Settings)
    : M AccessAndRefreshTokens :=
  let* payload := decode_token token (secret_keys settings) "refresh" in
  let* utc := utcnow in
  let now := timestamp utc in
  let* iat := getitem payload "iat" in
  let* iat := number iat in
  let* age := timedelta_seconds (now - iat) in
  if refresh_token_max_age settings <? age then raise session_expired
  else
    let* _ :=
      match session_max_age settings with
      | Some max_age =>
          let* sct := getitem payload "sct" in
          let* sct := number sct in
          let* session_age := timedelta_seconds (now - sct) in
          if max_age <? session_age then raise session_expired else ret tt
      | None => ret tt
      end in
    let* sub := getitem payload "sub" in
    let* sid := getitem payload "sid" in
    let* sct := getitem payload "sct" in
    let* sct := number sct in
    let* session_creation_time := datetime_fromtimestamp sct in
    let* secret_key := first_item (secret_keys settings) in
    let* new_refresh_token :=
      create_refresh_token {["sub" := sub]} secret_key (Some sid)
        (Some session_creation_time) in
    let* sub := getitem payload "sub" in
    let* secret_key := first_item (secret_keys settings) in
    let* access :=
      create_access_token {["sub" := sub]} (access_token_max_age settings)
        secret_key in
    ret (mkTokens access
           (timedelta_truediv (access_token_max_age settings) UNIT_SECOND)
           new_refresh_token
           (timedelta_truediv (refresh_token_max_age settings) UNIT_SECOND)
           "bearer").

(** One successful call of [refresh]: the settings and the state it ran in,
    and the response it returned. *)
Record Rotation := mkRotation {
  rot_settings : Settings;
  rot_world : World;
  rot_tokens : AccessAndRefreshTokens
}.

(** [l] is a chain of successful refresh calls: the first presents [t], each
    later one presents the refresh token returned by the call before it. *)
Fixpoint refresh_chain (t : Token) (l : list Rotation) : Prop :=
  match l with
  | [] => True
  | r :: l' =>
      run (refresh t (rot_settings r)) (rot_world r) = Ok (rot_tokens r)
      ∧ refresh_chain (refresh_token (rot_tokens r)) l'
  end.

(** The time of the rotation [r] of the token [t]: the clock reading taken by
    [create_refresh_token], the second one after decoding. *)
Definition rotation_time (t : Token) (r : Rotation) : Z :=
  let w1 :=
    snd (decode_token t (secret_keys (rot_settings r)) "refresh" (rot_world r)) in
  timestamp (utc_clock w1 (S (clock_reads w1))).

(** Every call of the chain returned a refresh token that carries [sub],
    [sid] and [sct], with the time of its rotation as "iat", encoded with
    the first key of its settings. *)
Fixpoint chain_claims (sub sid : JVal) (sct : Z) (t : Token)
    (l : list Rotation) : Prop :=
  match l with
  | [] => True
  | r :: l' =>
      (∃ k ks,
         secret_keys (rot_settings r) = k :: ks
         ∧ refresh_token (rot_tokens r)
           = jwt_encode (refresh_claims sub sid (rotation_time t r) sct) k
               ALGORITHM)
      ∧ chain_claims sub sid sct (refresh_token (rot_tokens r)) l'
  end.

(** The clock reading [refresh] compares the two ages with, in the rotation
    [r] of the token [t]: the first one after decoding. *)
Definition rotation_now (t : Token) (r : Rotation) : Z :=
  let w1 :=
    snd (decode_token t (secret_keys (rot_settings r)) "refresh" (rot_world r)) in
  timestamp (utc_clock w1 (clock_reads w1)).

(** Every call of the chain ran no later than the refresh-token max age after
    the "iat" of the token it was given, and no later than the session max
    age, when its settings have one, after [sct]. *)
Fixpoint chain_ages (iat sct : Z) (t : Token) (l : list Rotation) : Prop :=
  match l with
  | [] => True
  | r :: l' =>
      (rotation_now t r - iat ≤ refresh_token_max_age (rot_settings r)
       ∧ ∀ m, session_max_age (rot_settings r) = Some m →
              rotation_now t r - sct ≤ m)
      ∧ chain_ages (rotation_time t r) sct (refresh_token (rot_tokens r)) l'
  end.

(** The cookie changes a response carries: [response.delete_cookie(name)]
    adds a deletion. *)
Inductive CookieOp :=
| DeleteCookie (name : string).

Record Response := mkResponse {
  cookie_ops : list CookieOp
}.

Definition delete_cookie (name : string) (response : Response) : Response :=
  mkResponse (cookie_ops response ++ [DeleteCookie name]).

(** [logout] returns the empty dictionary; the response is passed on. *)
Definition logout (response : Response) : Payload * Response :=
  let response := delete_cookie API_KEY_COOKIE_NAME response in
  let response := delete_cookie CSRF_COOKIE_NAME response in
  (∅, response).

(** How the framework calls [get_current_user] for a protected request: the
    API-key dependency runs on the three channels of the request, and its
    result is the argument [has_single_user_api_key]; [token] is what the
    bearer scheme found in the Authorization header. *)
Definition current_user_dependency (request : Request)
    (token : option Token) (settings : Settings)
    (authenticator : option Authenticator) : M User :=
  let* has_single_user_api_key :=
    check_single_user_api_key (api_key_query request) (api_key_header request)
      (api_key_cookie request) settings in
  get_current_user request token has_single_user_api_key settings
    authenticator.

End Authentication.

Arguments Settings : clear implicits.
Arguments AccessAndRefreshTokens : clear implicits.

(** ** A symbolic runtime, to run the module on concrete inputs

    A token is the claims and the key that signed them; anything else is
    not a token.  [sym_encode] turns a datetime under [exp], [iat] or [nbf]
    into whole seconds, as python-jose does; [sym_decode] rejects another
    key or algorithm, then checks [exp] against the clock.  Local time is
    one hour ahead of UTC. *)

Inductive SymToken :=
| Signed (claims : Payload) (key : string) (algorithm : string)
| Garbage (text : string).

Definition intdate (name : string) (claims : Payload) : Payload :=
  match claims !! name with
  | Some (JDatetime us) => <[name := JInt (us `div` 1000000)]> claims
  | _ => claims
  end.

Definition sym_encode (claims : Payload) (key : string) (algorithm : string)
    : SymToken :=
  Signed (intdate "nbf" (intdate "iat" (intdate "exp" claims))) key algorithm.

Definition sym_decode (token : SymToken) (key : string)
    (algorithms : list string) : M Payload :=
  match token with
  | Garbage _ => raise JWTError
  | Signed claims key' algorithm =>
      if bool_decide (key' = key) && bool_decide (algorithm ∈ algorithms) then
        match claims !! "exp" with
        | None => ret claims
        | Some v =>
            let* exp := number v in
            let* now := utcnow in
            if exp `div` 1000000 <? now `div` 1000000
            then raise ExpiredSignatureError
            else ret claims
        end
      else raise JWTError
  end.

Definition symbolic : Runtime := {|
  Key := string;
  Key_eq_dec := String.eq_dec;
  Token := SymToken;
  jwt_encode := sym_encode;
  jwt_decode := sym_decode;
  utcoffset := fun _ => 3600000000;
  fromtimestamp := fun t => t + 3600000000
|}.

(** A state [late] seconds after 2021-06-01 00:00:00 UTC: the first reading
    of the clock gives that time, the later ones a tenth of a second more. *)
Definition world_at (late : Z) : World :=
  let start := (1622505600 + late) * 1000000 in
  let later := start + 100000 in
  mkWorld (fun n => match n with O => start | S _ => later end) 0
          (fun n => Z.of_nat n) 0 [].

Definition alice_only : Authenticator :=
  mkAuthenticator (fun u p =>
    if String.eqb u "alice" && String.eqb p "secret" then Some "alice"
    else None).

(** Two keys, 15 minutes of access, 7 days of refresh, no session limit. *)
Definition demo_settings : Settings symbolic :=
  mkSettings (R := symbolic) ["k-new"; "k-old"] 900000000 604800000000 None
    false (Some "s3cr3t").

Definition demo_form : OAuth2PasswordRequestForm := mkForm "alice" "secret".

(** The same settings after a key rotation, and with a session limit of 30
    days. *)
Definition rotated_settings : Settings symbolic :=
  mkSettings (R := symbolic) ["k-next"; "k-new"] 900000000 604800000000
    (Some 2592000000000) false (Some "s3cr3t").

Definition no_tokens : AccessAndRefreshTokens symbolic :=
  mkTokens (R := symbolic) (Garbage "") 0%Q (Garbage "") 0%Q "".

Definition tokens_of (r : Result (AccessAndRefreshTokens symbolic))
    : AccessAndRefreshTokens symbolic :=
  match r with
  | Ok tokens => tokens
  | Raise _ => no_tokens
  end.

(** A login at the start of the clock, a refresh a minute later and, after
    the key rotation, a second refresh two minutes later. *)
Definition demo_tokens0 : AccessAndRefreshTokens symbolic :=
  tokens_of (run (login_for_access_token (R := symbolic) demo_form
                    (Some alice_only) demo_settings) (world_at 0)).

Definition demo_rotation1 : Rotation (R := symbolic) :=
  mkRotation (R := symbolic) demo_settings (world_at 60)
    (tokens_of (run (refresh (R := symbolic) (refresh_token demo_tokens0)
                       demo_settings) (world_at 60))).

Definition demo_rotation2 : Rotation (R := symbolic) :=
  mkRotation (R := symbolic) rotated_settings (world_at 180)
    (tokens_of (run (refresh (R := symbolic)
                       (refresh_token (rot_tokens demo_rotation1))
                       rotated_settings) (world_at 180))).

(** The claims of the login's refresh token. *)
Definition demo_sid : Z := 302240678275694148452352.
Definition demo_iat : Z := 1622502000100000.
Definition demo_claims : Payload :=
  refresh_claims (JStr "alice") (JInt demo_sid) demo_iat demo_iat.

(** Requests that carry two API-key values: the configured key first and
    another value in the header, and the other way round. *)
Definition key_then_wrong : Request :=
  mkRequest {["api_key" := "s3cr3t"]} {["x-tiled-api-key" := "wrong"]} ∅.
Definition wrong_then_key : Request :=
  mkRequest {["api_key" := "wrong"]} {["x-tiled-api-key" := "s3cr3t"]} ∅.
Definition no_key : Request := mkRequest ∅ ∅ ∅.

(** A request that carries the configured key in the API-key cookie only. *)
Definition cookie_only : Request :=
  mkRequest ∅ ∅ {["tiled_api_key" := "s3cr3t"]}.

(** Settings with an empty key list, and settings after a rotation that
    dropped the key "k-new". *)
Definition keyless_settings : Settings symbolic :=
  mkSettings (R := symbolic) [] 900000000 604800000000 None false
    (Some "s3cr3t").
Definition dropped_settings : Settings symbolic :=
  mkSettings (R := symbolic) ["k-next"] 900000000 604800000000 None false
    (Some "s3cr3t").


(** A signed refresh token whose "iat" lies 40 million years after the
    epoch. *)
Definition far_iat : Z := 1262277040000000 * 1000000.
Definition far_iat_token : SymToken :=
  Signed (refresh_claims (JStr "alice") (JInt demo_sid) far_iat demo_iat)
    "k-new" "HS256".

(** A signed refresh-typed token with no "sct" claim. *)
Definition no_sct_claims : Payload :=
  <["type" := JStr "refresh"]>
    (<["iat" := JFloat demo_iat]>
       (<["sid" := JInt demo_sid]> {["sub" := JStr "alice"]})).
Definition no_sct_token : SymToken := Signed no_sct_claims "k-new" "HS256".

(** Signed refresh-typed tokens with no "iat" claim, and with a zero "sid". *)
Definition no_iat_token : SymToken :=
  Signed (<["type" := JStr "refresh"]> {["sub" := JStr "alice"]}) "k-new"
    "HS256".


(** ** Properties *)

Section Properties.
Context {R : Runtime}.

Implicit Types (w : World) (s : Settings R) (request : Request).
Implicit Types (token : option Token) (authenticator : option Authenticator).

Ltac run_step :=
  unfold run, bind, ret, raise in *; simpl in *.

(** *** The single-user API key *)


Lemma check_single_user_api_key_first q h c s w :
  check_single_user_api_key q h c s w
  = (match first_present q h c with
     | None => Ok false
     | Some v => if decide (Some v = single_user_api_key s)
                 then Ok true else Raise invalid_api_key
     end, w).
Proof.
  unfold check_single_user_api_key, check_api_keys, first_present.
  destruct q, h, c; run_step; repeat case_decide; reflexivity.
Qed.

(** C5: the API-key check compares exactly the first non-absent value in the
    order query, header, cookie with the configured key: it returns True on a
    match, raises 401 "Invalid API key" on a mismatch (also when the header
    and the cookie carry the configured key), and returns False without an
    error when the three channels are absent. *)
Theorem check_single_user_api_key_priority q h c s w :
  check_single_user_api_key q h c s w
  = (match first_present q h c with
     | None => Ok false
     | Some v => if decide (Some v = single_user_api_key s)
                 then Ok true else Raise invalid_api_key
     end, w)
  ∧ (∀ v, Some v ≠ single_user_api_key s →
       check_single_user_api_key (Some v) (single_user_api_key s)
         (single_user_api_key s) s w = (Raise invalid_api_key, w))
  ∧ check_single_user_api_key None None None s w = (Ok false, w).
Proof.
  split; [|split].
  - apply check_single_user_api_key_first.
  - intros v Hv. rewrite check_single_user_api_key_first. simpl.
    case_decide; [contradiction | reflexivity].
  - reflexivity.
Qed.

(** *** Principal resolution *)

Lemma get_current_user_admin request token s w :
  get_current_user request token true s None w
  = (Ok (Special admin),
     if decide (cookies request !! API_KEY_COOKIE_NAME = single_user_api_key s)
     then w
     else mkWorld (system_clock w) (clock_reads w) (os_urandom w) (urandom_reads w)
            (cookies_to_set w ++ [(API_KEY_COOKIE_NAME, single_user_api_key s)])).
Proof.
  unfold get_current_user. simpl. run_step.
  case_decide; reflexivity.
Qed.

Lemma get_current_user_no_admin request token has s authenticator w :
  ¬ (authenticator = None ∧ has = true) →
  get_current_user request token has s authenticator w
  = match token with
    | None =>
        if allow_anonymous_access s then (Ok (Special public), w)
        else (Raise (HTTPException 401 "Not authenticated" []), w)
    | Some t =>
        match decode_token t (secret_keys s) "access" w with
        | (Ok payload, w') => (Ok (Named (payload !! "sub")), w')
        | (Raise e, w') => (Raise e, w')
        end
    end.
Proof.
  intros Hn. unfold get_current_user.
  destruct authenticator as [a|], has; simpl;
    try (exfalso; apply Hn; split; reflexivity);
    destruct token as [t|]; try reflexivity;
    try (destruct (allow_anonymous_access s); reflexivity).
Qed.

(** C7: [get_current_user] resolves the principal by this case split: with
    no authenticator and a valid single-user API key presented, the admin
    sentinel, and the API-key cookie is appended to the cookies to set exactly
    when the request's cookie does not hold the key; otherwise, with no bearer
    token, the public sentinel when anonymous access is enabled and 401 "Not
    authenticated" when it is not; otherwise the bearer token is decoded as an
    access token and the decoded subject claim is returned.  A protected
    request whose first non-absent API-key value is the configured key
    resolves to the admin sentinel when no authenticator is configured. *)
Theorem get_current_user_case_split request token has s authenticator w :
  (authenticator = None → has = true →
     run (get_current_user request token has s authenticator) w
       = Ok (Special admin)
     ∧ cookies_to_set (snd (get_current_user request token has s authenticator w))
       = if decide (cookies request !! API_KEY_COOKIE_NAME
                    = single_user_api_key s)
         then cookies_to_set w
         else cookies_to_set w
                ++ [(API_KEY_COOKIE_NAME, single_user_api_key s)])
  ∧ (¬ (authenticator = None ∧ has = true) → token = None →
       get_current_user request token has s authenticator w
       = (if allow_anonymous_access s then Ok (Special public)
          else Raise (HTTPException 401 "Not authenticated" []), w))
  ∧ (¬ (authenticator = None ∧ has = true) → ∀ t, token = Some t →
       get_current_user request token has s authenticator w
       = match decode_token t (secret_keys s) "access" w with
         | (Ok payload, w') => (Ok (Named (payload !! "sub")), w')
         | (Raise e, w') => (Raise e, w')
         end)
  ∧ (∀ v,
       first_present (api_key_query request) (api_key_header request)
         (api_key_cookie request) = Some v →
       single_user_api_key s = Some v →
       run (current_user_dependency request token s None) w
       = Ok (Special admin)).
Proof.
  split; [|split; [|split]].
  - intros -> ->. unfold run. rewrite get_current_user_admin.
    split; [reflexivity|]. simpl. case_decide; reflexivity.
  - intros Hn ->. rewrite get_current_user_no_admin by exact Hn.
    destruct (allow_anonymous_access s); reflexivity.
  - intros Hn t ->. rewrite get_current_user_no_admin by exact Hn.
    reflexivity.
  - intros v Hv Hkey. unfold run, current_user_dependency, bind.
    rewrite check_single_user_api_key_first. rewrite Hv, Hkey.
    rewrite decide_True by reflexivity.
    rewrite get_current_user_admin. reflexivity.
Qed.


(** C9, as amended: when the first non-absent API-key value, in the order
    query, header, cookie, does not match the configured key, the request is
    rejected with 401 "Invalid API key", whether or not an authenticator is
    configured and whatever bearer token comes with it. *)
Theorem first_mismatch_rejected request token s authenticator w v :
  first_present (api_key_query request) (api_key_header request)
    (api_key_cookie request) = Some v →
  Some v ≠ single_user_api_key s →
  current_user_dependency request token s authenticator w
  = (Raise invalid_api_key, w).
Proof.
  intros Hv Hne. unfold current_user_dependency, bind.
  rewrite check_single_user_api_key_first.
  rewrite Hv. case_decide; [contradiction | reflexivity].
Qed.

(** C10: with an authenticator configured, the result of the API-key check
    is ignored: [get_current_user] returns what it returns without a key, the
    principal of the bearer token or of the anonymous-access policy, and it
    never returns the admin sentinel; so does a protected request that
    presents the valid key. *)
Theorem api_key_ignored_with_authenticator request token has s a w :
  get_current_user request token has s (Some a) w
  = get_current_user request token false s (Some a) w
  ∧ get_current_user request token has s (Some a) w
    = match token with
      | None =>
          if allow_anonymous_access s then (Ok (Special public), w)
          else (Raise (HTTPException 401 "Not authenticated" []), w)
      | Some t =>
          match decode_token t (secret_keys s) "access" w with
          | (Ok payload, w') => (Ok (Named (payload !! "sub")), w')
          | (Raise e, w') => (Raise e, w')
          end
      end
  ∧ run (get_current_user request token has s (Some a)) w
    ≠ Ok (Special admin)
  ∧ (∀ v,
       first_present (api_key_query request) (api_key_header request)
         (api_key_cookie request) = Some v →
       single_user_api_key s = Some v →
       current_user_dependency request token s (Some a) w
       = get_current_user request token false s (Some a) w
       ∧ run (current_user_dependency request token s (Some a)) w
         ≠ Ok (Special admin)).
Proof.
  assert (Hn : ∀ b, ¬ (Some a = None ∧ b = true)) by (intros b [? _]; discriminate).
  assert (Hadm : run (get_current_user request token has s (Some a)) w
                 ≠ Ok (Special admin)).
  { unfold run. rewrite get_current_user_no_admin by apply Hn.
    destruct token as [t|].
    - destruct (decode_token t (secret_keys s) "access" w) as [[payload|e] w1];
        simpl; discriminate.
    - destruct (allow_anonymous_access s); simpl; discriminate. }
  assert (Heq : get_current_user request token has s (Some a) w
                = get_current_user request token false s (Some a) w).
  { rewrite !get_current_user_no_admin by apply Hn. reflexivity. }
  split; [exact Heq|]. split; [apply get_current_user_no_admin, Hn|].
  split; [exact Hadm|].
  intros v Hv Hkey.
  assert (Hdep : current_user_dependency request token s (Some a) w
                 = get_current_user request token true s (Some a) w).
  { unfold current_user_dependency, bind.
    rewrite check_single_user_api_key_first.
    rewrite Hv, Hkey. case_decide; [reflexivity | contradiction]. }
  split.
  - rewrite Hdep. rewrite !get_current_user_no_admin by apply Hn. reflexivity.
  - unfold run. rewrite Hdep.
    rewrite get_current_user_no_admin by apply Hn.
    destruct token as [t|].
    + destruct (decode_token t (secret_keys s) "access" w) as [[payload|e] w1];
        simpl; discriminate.
    + destruct (allow_anonymous_access s); simpl; discriminate.
Qed.

(** *** Decoding with the key list *)

Lemma decode_with_keys_skip (t : Token) pre post w w1 :
  key_mismatches t pre w w1 →
  decode_with_keys t (pre ++ post) w = decode_with_keys t post w1.
Proof.
  induction 1 as [w|k rest w w1 w' Hk _ IH]; [reflexivity|].
  simpl. rewrite Hk. exact IH.
Qed.

Lemma decode_with_keys_cases (t : Token) keys w :
  (∃ w1, key_mismatches t keys w w1)
  ∨ (∃ pre k post w1 r w2,
       keys = pre ++ k :: post
       ∧ key_mismatches t pre w w1
       ∧ jwt_decode t k [ALGORITHM] w1 = (r, w2)
       ∧ r ≠ Raise JWTError).
Proof.
  revert w. induction keys as [|k keys IH]; intros w.
  - left. exists w. constructor.
  - destruct (jwt_decode t k [ALGORITHM] w) as [r w1] eqn:Hk.
    assert (Hr : r = Raise JWTError ∨ r ≠ Raise JWTError).
    { destruct r as [payload|[]]; (left; reflexivity) || (right; discriminate). }
    destruct Hr as [->|Hr].
    + destruct (IH w1) as [[w2 Hm]|(pre & k' & post & w2 & r & w3 & -> & Hm & Hk' & Hr)].
      * left. exists w2. econstructor; eassumption.
      * right. exists (k :: pre), k', post, w2, r, w3.
        repeat split; try assumption. econstructor; eassumption.
    + right. exists [], k, keys, w, r, w1.
      repeat split; try assumption. constructor.
Qed.

Lemma decode_token_verified (t : Token) k post expected_type payload w w' :
  jwt_decode t k [ALGORITHM] w = (Ok payload, w') →
  decode_token t (k :: post) expected_type w
  = (if decide (payload !! "type" = Some (JStr expected_type))
     then Ok payload else Raise credentials_exception, w').
Proof.
  intros Hk. unfold decode_token, bind. simpl. rewrite Hk.
  case_decide; reflexivity.
Qed.

Lemma decode_token_skip (t : Token) pre post expected_type w w1 :
  key_mismatches t pre w w1 →
  decode_token t (pre ++ post) expected_type w
  = decode_token t post expected_type w1.
Proof.
  intros Hm. unfold decode_token, bind.
  rewrite (decode_with_keys_skip t pre post w w1 Hm). reflexivity.
Qed.

(** A key other than the signing key fails on the signature, before any
    claim is looked at: the attempt raises [JWTError] and touches nothing. *)
Hypothesis jwt_decode_other_key :
  ∀ claims (k k' : Key) algorithm algorithms w,
    k' ≠ k →
    jwt_decode (jwt_encode claims k algorithm) k' algorithms w
    = (Raise JWTError, w).

Lemma key_mismatches_other_keys claims (K : Key) algorithm keys w :
  K ∉ keys →
  key_mismatches (jwt_encode claims K algorithm) keys w w.
Proof.
  induction keys as [|k keys IH]; intros Hnot; [constructor|].
  apply not_elem_of_cons in Hnot as [Hne Hnot].
  econstructor; [|apply IH, Hnot].
  apply jwt_decode_other_key. congruence.
Qed.

(** C3: decoding tries the keys in list order.  When the keys tried so far
    raised a plain [JWTError]: with no key left, decoding fails with 401
    "Could not validate credentials"; an expiry on the next key fails at once
    with 401 "Access token has expired.", whatever keys follow; a payload
    verified by the next key is the payload decoded.  Every run is one of
    these.  Hence a token encoded with key K, valid under K and of the
    expected type, decodes at any position of K in the list, and fails with
    401 "Could not validate credentials" when K is not in the list. *)
Theorem decode_token_key_order (t : Token) expected_type w :
  (∀ pre w1, key_mismatches t pre w w1 →
     decode_token t pre expected_type w = (Raise credentials_exception, w1)
     ∧ (∀ k post w2,
          jwt_decode t k [ALGORITHM] w1 = (Raise ExpiredSignatureError, w2) →
          decode_token t (pre ++ k :: post) expected_type w
          = (Raise access_token_expired, w2))
     ∧ (∀ k post payload w2,
          jwt_decode t k [ALGORITHM] w1 = (Ok payload, w2) →
          payload !! "type" = Some (JStr expected_type) →
          decode_token t (pre ++ k :: post) expected_type w
          = (Ok payload, w2)))
  ∧ (∀ keys,
       (∃ w1, key_mismatches t keys w w1)
       ∨ (∃ pre k post w1 r w2,
            keys = pre ++ k :: post
            ∧ key_mismatches t pre w w1
            ∧ jwt_decode t k [ALGORITHM] w1 = (r, w2)
            ∧ r ≠ Raise JWTError))
  ∧ (∀ claims K algorithm,
       t = jwt_encode claims K algorithm →
       (∀ keys payload w2,
          K ∈ keys →
          jwt_decode t K [ALGORITHM] w = (Ok payload, w2) →
          payload !! "type" = Some (JStr expected_type) →
          decode_token t keys expected_type w = (Ok payload, w2))
       ∧ (∀ keys, K ∉ keys →
            decode_token t keys expected_type w
            = (Raise credentials_exception, w))).
Proof.
  split; [|split].
  - intros pre w1 Hm. split; [|split].
    + rewrite <- (app_nil_r pre).
      rewrite (decode_token_skip t pre [] expected_type w w1 Hm).
      reflexivity.
    + intros k post w2 Hk.
      rewrite (decode_token_skip t pre (k :: post) expected_type w w1 Hm).
      unfold decode_token, bind. simpl. rewrite Hk. reflexivity.
    + intros k post payload w2 Hk Hty.
      rewrite (decode_token_skip t pre (k :: post) expected_type w w1 Hm).
      rewrite (decode_token_verified t k post expected_type payload w1 w2 Hk).
      rewrite decide_True by exact Hty. reflexivity.
  - intros keys. apply decode_with_keys_cases.
  - intros claims K algorithm ->. split.
    + intros keys payload w2 [pre [post [-> Hpre]]]%list_elem_of_split_l
        HK Hty.
      rewrite (decode_token_skip _ pre (K :: post) expected_type w w).
      * rewrite (decode_token_verified _ K post expected_type payload w w2 HK).
        rewrite decide_True by exact Hty. reflexivity.
      * apply key_mismatches_other_keys, Hpre.
    + intros keys Hnot.
      rewrite <- (app_nil_r keys).
      rewrite (decode_token_skip _ keys [] expected_type w w).
      * reflexivity.
      * apply key_mismatches_other_keys, Hnot.
Qed.

(** C4: when some key verifies the token and the decoded "type" claim is not
    the expected type, decoding fails with 401 "Could not validate
    credentials"; so a refresh token presented as a bearer access token, and
    an access token presented for a refresh, are rejected with that error. *)
Theorem decode_token_type_confusion (t : Token) keys payload w w' :
  decode_with_keys t keys w = (Ok payload, w') →
  (∀ expected_type,
     payload !! "type" ≠ Some (JStr expected_type) →
     decode_token t keys expected_type w = (Raise credentials_exception, w'))
  ∧ (payload !! "type" = Some (JStr "refresh") →
     ∀ request has s authenticator,
       secret_keys s = keys →
       ¬ (authenticator = None ∧ has = true) →
       get_current_user request (Some t) has s authenticator w
       = (Raise credentials_exception, w'))
  ∧ (payload !! "type" = Some (JStr "access") →
     ∀ s, secret_keys s = keys →
       refresh t s w = (Raise credentials_exception, w')).
Proof.
  intros Hdec.
  assert (Hmis : ∀ expected_type,
             payload !! "type" ≠ Some (JStr expected_type) →
             decode_token t keys expected_type w
             = (Raise credentials_exception, w')).
  { intros expected_type Hty. unfold decode_token, bind. rewrite Hdec.
    rewrite decide_False by exact Hty. reflexivity. }
  split; [exact Hmis|]. split.
  - intros Hty request has s authenticator <- Hn.
    rewrite get_current_user_no_admin by exact Hn.
    rewrite Hmis; [reflexivity|]. rewrite Hty. discriminate.
  - intros Hty s <-. unfold refresh, bind at 1.
    rewrite Hmis; [reflexivity|]. rewrite Hty. discriminate.
Qed.

(** *** Login *)

Lemma uuid_v4_int_nonzero r : uuid_v4_int r ≠ 0.
Proof.
  unfold uuid_v4_int. intros H.
  apply Z.lor_eq_0_iff in H as [_ H]. discriminate H.
Qed.


Lemma not_username_false u :
  not_username u = false ↔ ∃ name, u = Some name ∧ name ≠ "".
Proof.
  destruct u as [n|]; simpl.
  - rewrite negb_involutive. split.
    + intros H. exists n. split; [reflexivity|].
      intros ->. discriminate H.
    + intros (? & [= <-] & Hne).
      destruct (String.eqb_spec n ""); [contradiction | reflexivity].
  - split; [discriminate | intros (? & ? & _); discriminate].
Qed.

(** The response of a login that the authenticator accepts. *)
Lemma login_issues form_data a s w name k0 ks :
  authenticate a (username form_data) (password form_data) = Some name →
  name ≠ "" →
  secret_keys s = k0 :: ks →
  ∃ w',
    login_for_access_token form_data (Some a) s w
    = (Ok (mkTokens
             (jwt_encode
                (access_claims (JStr name)
                   (utc_clock w (clock_reads w) + access_token_max_age s))
                k0 ALGORITHM)
             (timedelta_truediv (access_token_max_age s) UNIT_SECOND)
             (jwt_encode
                (refresh_claims (JStr name)
                   (JInt (uuid_v4_int (os_urandom w (urandom_reads w))))
                   (timestamp (utc_clock w (S (clock_reads w))))
                   (timestamp (utc_clock w (S (clock_reads w)))))
                k0 ALGORITHM)
             (timedelta_truediv (refresh_token_max_age s) UNIT_SECOND)
             "bearer"), w')
    ∧ urandom_reads w' = S (urandom_reads w).
Proof.
  intros Hauth Hname Hkeys.
  assert (Hno : not_username (Some name) = false).
  { apply not_username_false. exists name. split; [reflexivity | exact Hname]. }
  unfold login_for_access_token. rewrite Hauth, Hno, Hkeys.
  eexists. split; reflexivity.
Qed.

Lemma login_success_inv form_data authenticator s w tokens w' :
  login_for_access_token form_data authenticator s w = (Ok tokens, w') →
  ∃ a name k0 ks,
    authenticator = Some a
    ∧ authenticate a (username form_data) (password form_data) = Some name
    ∧ name ≠ ""
    ∧ secret_keys s = k0 :: ks.
Proof.
  intros Hlogin. destruct authenticator as [a|]; [|discriminate Hlogin].
  unfold login_for_access_token in Hlogin.
  destruct (not_username (authenticate a _ _)) eqn:Hno; [discriminate Hlogin|].
  apply not_username_false in Hno as (name & Hauth & Hne).
  rewrite Hauth in Hlogin. simpl in Hlogin.
  destruct (secret_keys s) as [|k0 ks]; [discriminate Hlogin|].
  exists a, name, k0, ks. split; [reflexivity|].
  split; [exact Hauth|]. split; [exact Hne | reflexivity].
Qed.


(** *** Refresh *)

Lemma decode_token_nonempty (t : Token) keys expected_type payload w w1 :
  decode_token t keys expected_type w = (Ok payload, w1) →
  ∃ k0 ks, keys = k0 :: ks.
Proof.
  destruct keys as [|k0 ks]; [discriminate | eauto].
Qed.

Lemma decode_token_type (t : Token) keys expected_type payload w w1 :
  decode_token t keys expected_type w = (Ok payload, w1) →
  payload !! "type" = Some (JStr expected_type).
Proof.
  unfold decode_token, bind.
  destruct (decode_with_keys t keys w) as [[p|e] w0]; [|discriminate].
  case_decide; [|discriminate]. intros [= <- _]. assumption.
Qed.

Arguments utc_clock : simpl never.
Arguments timestamp : simpl never.





(** What [refresh] does once the presented token is decoded and its "iat"
    and "sct" claims are numbers. *)
Lemma refresh_decoded (t : Token) s w payload w1 viat iat vsct sct :
  decode_token t (secret_keys s) "refresh" w = (Ok payload, w1) →
  payload !! "iat" = Some viat → seconds viat = Some iat →
  payload !! "sct" = Some vsct → seconds vsct = Some sct →
  refresh t s w
  = let now := timestamp (utc_clock w1 (clock_reads w1)) in
    let w2 := snd (utcnow w1) in
    if negb (timedelta_in_range (now - iat)) then (Raise OverflowError, w2)
    else if refresh_token_max_age s <? now - iat
    then (Raise session_expired, w2)
    else if match session_max_age s with
            | Some _ => negb (timedelta_in_range (now - sct))
            | None => false
            end
    then (Raise OverflowError, w2)
    else if match session_max_age s with
            | Some max_age => max_age <? now - sct
            | None => false
            end
    then (Raise session_expired, w2)
    else
      (let* sub := getitem payload "sub" in
       let* sid := getitem payload "sid" in
       let* session_creation_time := datetime_fromtimestamp sct in
       let* secret_key := first_item (secret_keys s) in
       let* new_refresh_token :=
         create_refresh_token {["sub" := sub]} secret_key (Some sid)
           (Some session_creation_time) in
       let* access :=
         create_access_token {["sub" := sub]} (access_token_max_age s)
           secret_key in
       ret (mkTokens access
              (timedelta_truediv (access_token_max_age s) UNIT_SECOND)
              new_refresh_token
              (timedelta_truediv (refresh_token_max_age s) UNIT_SECOND)
              "bearer")) w2.
Proof.
  intros Hdec Hiat Hsiat Hsct Hssct.
  assert (Hrest : ∀ w2,
    (let* sub := getitem payload "sub" in
     let* sid := getitem payload "sid" in
     let* sct0 := getitem payload "sct" in
     let* sct1 := number sct0 in
     let* session_creation_time := datetime_fromtimestamp sct1 in
     let* secret_key := first_item (secret_keys s) in
     let* new_refresh_token :=
       create_refresh_token {["sub" := sub]} secret_key (Some sid)
         (Some session_creation_time) in
     let* sub0 := getitem payload "sub" in
     let* secret_key0 := first_item (secret_keys s) in
     let* access :=
       create_access_token {["sub" := sub0]} (access_token_max_age s)
         secret_key0 in
     ret (mkTokens access
            (timedelta_truediv (access_token_max_age s) UNIT_SECOND)
            new_refresh_token
            (timedelta_truediv (refresh_token_max_age s) UNIT_SECOND)
            "bearer")) w2
    = (let* sub := getitem payload "sub" in
       let* sid := getitem payload "sid" in
       let* session_creation_time := datetime_fromtimestamp sct in
       let* secret_key := first_item (secret_keys s) in
       let* new_refresh_token :=
         create_refresh_token {["sub" := sub]} secret_key (Some sid)
           (Some session_creation_time) in
       let* access :=
         create_access_token {["sub" := sub]} (access_token_max_age s)
           secret_key in
       ret (mkTokens access
              (timedelta_truediv (access_token_max_age s) UNIT_SECOND)
              new_refresh_token
              (timedelta_truediv (refresh_token_max_age s) UNIT_SECOND)
              "bearer")) w2).
  { intros w2. unfold bind, getitem. rewrite Hsct.
    destruct (payload !! "sub"); simpl; [|reflexivity].
    destruct (payload !! "sid"); simpl; [|reflexivity].
    unfold number. rewrite Hssct. simpl.
    destruct (datetime_fromtimestamp sct w2) as [[d|e] w3]; [|reflexivity].
    destruct (secret_keys s); reflexivity. }
  unfold refresh. unfold bind at 1. rewrite Hdec.
  unfold bind at 1. simpl.
  unfold bind at 1. unfold getitem at 1. rewrite Hiat. simpl.
  unfold bind at 1. unfold number at 1. rewrite Hsiat. simpl.
  unfold bind at 1. unfold timedelta_seconds at 1.
  destruct (timedelta_in_range _); [|reflexivity]. simpl.
  destruct (refresh_token_max_age s <? _); [reflexivity|].
  unfold bind at 1.
  destruct (session_max_age s) as [max_age|].
  - unfold bind at 1. unfold getitem at 1. rewrite Hsct. simpl.
    unfold bind at 1. unfold number at 1. rewrite Hssct. simpl.
    unfold bind at 1. unfold timedelta_seconds at 1.
    destruct (timedelta_in_range _); [|reflexivity]. simpl.
    destruct (max_age <? _); [reflexivity|]. simpl.
    apply Hrest.
  - simpl. apply Hrest.
Qed.



(** What [refresh] issues when the presented token is decoded, its claims
    are there, the ages are durations within the two max ages and the session
    creation time is a datetime. *)
Lemma refresh_issues (t : Token) s w payload w1 viat iat vsct sct sub sid :
  decode_token t (secret_keys s) "refresh" w = (Ok payload, w1) →
  payload !! "iat" = Some viat → seconds viat = Some iat →
  payload !! "sct" = Some vsct → seconds vsct = Some sct →
  payload !! "sub" = Some sub →
  payload !! "sid" = Some sid →
  let now := timestamp (utc_clock w1 (clock_reads w1)) in
  timedelta_in_range (now - iat) = true →
  now - iat ≤ refresh_token_max_age s →
  (∀ m, session_max_age s = Some m →
        timedelta_in_range (now - sct) = true ∧ now - sct ≤ m) →
  datetime_in_range (fromtimestamp sct) = true →
  ∃ k0 ks,
    secret_keys s = k0 :: ks
    ∧ refresh t s w
      = (let* new_refresh_token :=
           create_refresh_token {["sub" := sub]} k0 (Some sid)
             (Some (fromtimestamp sct)) in
         let* access :=
           create_access_token {["sub" := sub]} (access_token_max_age s) k0 in
         ret (mkTokens access
                (timedelta_truediv (access_token_max_age s) UNIT_SECOND)
                new_refresh_token
                (timedelta_truediv (refresh_token_max_age s) UNIT_SECOND)
                "bearer")) (snd (utcnow w1)).
Proof.
  intros Hdec Hiat Hsiat Hsct Hssct Hsub Hsid now Hrange Hyoung Hsess Hdt.
  destruct (decode_token_nonempty _ _ _ _ _ _ Hdec) as (k0 & ks & Hkeys).
  exists k0, ks. split; [exact Hkeys|].
  rewrite (refresh_decoded t s w payload w1 viat iat vsct sct
             Hdec Hiat Hsiat Hsct Hssct).
  cbv zeta. fold now. rewrite Hrange. simpl.
  destruct (Z.ltb_spec (refresh_token_max_age s) (now - iat)); [lia|].
  assert (Hs1 : match session_max_age s with
                | Some _ => negb (timedelta_in_range (now - sct))
                | None => false
                end = false).
  { destruct (session_max_age s) as [m|] eqn:Hm; [|reflexivity].
    destruct (Hsess m eq_refl) as [-> _]. reflexivity. }
  assert (Hs2 : match session_max_age s with
                | Some max_age => max_age <? now - sct
                | None => false
                end = false).
  { destruct (session_max_age s) as [m|] eqn:Hm; [|reflexivity].
    destruct (Hsess m eq_refl) as [_ Hle]. apply Z.ltb_ge. exact Hle. }
  rewrite Hs1, Hs2.
  unfold bind at 1, getitem at 1. rewrite Hsub. simpl.
  unfold bind at 1, getitem at 1. rewrite Hsid. simpl.
  unfold bind at 1, datetime_fromtimestamp at 1. rewrite Hdt. simpl.
  unfold bind at 1. rewrite Hkeys. reflexivity.
Qed.

(** What held when [refresh] returned tokens for a decoded payload. *)
Lemma refresh_succeeded (t : Token) s w payload w1 viat iat vsct sct tokens :
  decode_token t (secret_keys s) "refresh" w = (Ok payload, w1) →
  payload !! "iat" = Some viat → seconds viat = Some iat →
  payload !! "sct" = Some vsct → seconds vsct = Some sct →
  run (refresh t s) w = Ok tokens →
  let now := timestamp (utc_clock w1 (clock_reads w1)) in
  timedelta_in_range (now - iat) = true
  ∧ now - iat ≤ refresh_token_max_age s
  ∧ (∀ m, session_max_age s = Some m →
          timedelta_in_range (now - sct) = true ∧ now - sct ≤ m)
  ∧ datetime_in_range (fromtimestamp sct) = true
  ∧ ∃ sub sid, payload !! "sub" = Some sub ∧ payload !! "sid" = Some sid.
Proof.
  intros Hdec Hiat Hsiat Hsct Hssct Hrun now. unfold run in Hrun.
  rewrite (refresh_decoded t s w payload w1 viat iat vsct sct
             Hdec Hiat Hsiat Hsct Hssct) in Hrun.
  cbv zeta in Hrun. fold now in Hrun.
  destruct (timedelta_in_range (now - iat)); [|discriminate Hrun].
  simpl in Hrun. split; [reflexivity|].
  destruct (Z.ltb_spec (refresh_token_max_age s) (now - iat));
    [discriminate Hrun|].
  split; [assumption|].
  assert (Hsess : ∀ m, session_max_age s = Some m →
                       timedelta_in_range (now - sct) = true ∧ now - sct ≤ m).
  { intros m Hm. rewrite Hm in Hrun.
    destruct (timedelta_in_range (now - sct)); [|discriminate Hrun].
    simpl in Hrun.
    destruct (Z.ltb_spec m (now - sct)); [discriminate Hrun|].
    split; [reflexivity | assumption]. }
  split; [exact Hsess|].
  destruct (match session_max_age s with
            | Some _ => negb (timedelta_in_range (now - sct))
            | None => false
            end); [discriminate Hrun|].
  destruct (match session_max_age s with
            | Some max_age => max_age <? now - sct
            | None => false
            end); [discriminate Hrun|].
  unfold bind at 1, getitem at 1 in Hrun.
  destruct (payload !! "sub") as [sub|]; [|discriminate Hrun].
  simpl in Hrun. unfold bind at 1, getitem at 1 in Hrun.
  destruct (payload !! "sid") as [sid|]; [|discriminate Hrun].
  simpl in Hrun. unfold bind at 1, datetime_fromtimestamp at 1 in Hrun.
  destruct (datetime_in_range (fromtimestamp sct)); [|discriminate Hrun].
  split; [reflexivity|]. exists sub, sid. split; reflexivity.
Qed.


(** *** The refresh chain *)

(** Local time: a timestamp converted to a naive datetime converts back to
    itself. *)
Hypothesis timestamp_fromtimestamp : ∀ t, timestamp (fromtimestamp t) = t.

(** Whatever key verifies an encoded token, the payload it yields is the
    encoded claims, when these hold no datetime (a datetime is turned into a
    number by the encoder). *)
Hypothesis jwt_decode_claims :
  ∀ claims (k k' : Key) algorithm algorithms w payload w',
    (∀ name us, claims !! name ≠ Some (JDatetime us)) →
    jwt_decode (jwt_encode claims k algorithm) k' algorithms w
    = (Ok payload, w') →
    payload = claims.

Lemma decode_with_keys_verified (t : Token) keys w payload w' :
  decode_with_keys t keys w = (Ok payload, w') →
  ∃ k w0, k ∈ keys ∧ jwt_decode t k [ALGORITHM] w0 = (Ok payload, w').
Proof.
  revert w. induction keys as [|k keys IH]; intros w Hdec; [discriminate|].
  simpl in Hdec.
  destruct (jwt_decode t k [ALGORITHM] w) as [[p|e] w1] eqn:Hk.
  - exists k, w. split; [left|]. congruence.
  - destruct e; try discriminate Hdec.
    destruct (IH w1 Hdec) as (k' & w0 & Hin & Hk').
    exists k', w0. split; [right; exact Hin | exact Hk'].
Qed.

Lemma decode_token_claims claims (k : Key) algorithm keys expected_type w
    payload w' :
  (∀ name us, claims !! name ≠ Some (JDatetime us)) →
  decode_token (jwt_encode claims k algorithm) keys expected_type w
  = (Ok payload, w') →
  payload = claims.
Proof.
  intros Hjson Hdec. unfold decode_token, bind in Hdec.
  destruct (decode_with_keys _ keys w) as [[p|e] w1] eqn:Hkeys;
    [|discriminate Hdec].
  case_decide; [|discriminate Hdec].
  injection Hdec as <- <-.
  destruct (decode_with_keys_verified _ _ _ _ _ Hkeys) as (k' & w0 & _ & Hk').
  eapply jwt_decode_claims; eassumption.
Qed.

Lemma refresh_claims_lookup sub sid iat sct :
  refresh_claims sub sid iat sct !! "sub" = Some sub
  ∧ refresh_claims sub sid iat sct !! "sid" = Some sid
  ∧ refresh_claims sub sid iat sct !! "iat" = Some (JFloat iat)
  ∧ refresh_claims sub sid iat sct !! "sct" = Some (JFloat sct)
  ∧ refresh_claims sub sid iat sct !! "type" = Some (JStr "refresh").
Proof.
  unfold refresh_claims. repeat split; by simplify_map_eq.
Qed.


Lemma refresh_claims_json name sid iat sct :
  ∀ key us,
    refresh_claims (JStr name) (JInt sid) iat sct !! key ≠ Some (JDatetime us).
Proof.
  intros key us. unfold refresh_claims.
  destruct (decide (key = "sct")) as [->|]; [by simplify_map_eq|].
  destruct (decide (key = "sid")) as [->|]; [by simplify_map_eq|].
  destruct (decide (key = "iat")) as [->|]; [by simplify_map_eq|].
  destruct (decide (key = "type")) as [->|]; [by simplify_map_eq|].
  destruct (decide (key = "sub")) as [->|]; by simplify_map_eq.
Qed.

(** One rotation of a refresh token that carries a non-zero "sid". *)
Lemma refresh_rotation name sid iat sct (k : Key) algorithm (r : Rotation) :
  sid ≠ 0 →
  let t := jwt_encode (refresh_claims (JStr name) (JInt sid) iat sct) k
             algorithm in
  run (refresh t (rot_settings r)) (rot_world r) = Ok (rot_tokens r) →
  ∃ k' ks,
    secret_keys (rot_settings r) = k' :: ks
    ∧ refresh_token (rot_tokens r)
      = jwt_encode
          (refresh_claims (JStr name) (JInt sid) (rotation_time t r) sct) k'
          ALGORITHM.
Proof.
  intros Hsid t Hrun. unfold rotation_time.
  destruct r as [s w tokens]. simpl in *.
  destruct (decode_token t (secret_keys s) "refresh" w) as [[payload|e] w1]
    eqn:Hdec.
  2:{ unfold run, refresh, bind in Hrun. rewrite Hdec in Hrun.
      discriminate Hrun. }
  assert (payload = refresh_claims (JStr name) (JInt sid) iat sct) as ->.
  { eapply decode_token_claims; [apply refresh_claims_json | exact Hdec]. }
  destruct (refresh_claims_lookup (JStr name) (JInt sid) iat sct)
    as (Hsub & Hsidc & Hiat & Hsct & _).
  destruct (refresh_succeeded t s w _ w1 (JFloat iat) iat (JFloat sct) sct
              tokens Hdec Hiat eq_refl Hsct eq_refl Hrun)
    as (Hrange & Hyoung & Hsess & Hdt & _).
  destruct (refresh_issues t s w _ w1 (JFloat iat) iat (JFloat sct) sct
              (JStr name) (JInt sid) Hdec Hiat eq_refl Hsct eq_refl Hsub
              Hsidc Hrange Hyoung Hsess Hdt) as (k' & ks & Hkeys & Hissue).
  unfold run in Hrun. rewrite Hissue in Hrun.
  assert (Htruthy : (sid =? 0) = false) by (apply Z.eqb_neq; exact Hsid).
  unfold bind, create_refresh_token, create_access_token in Hrun.
  simpl in Hrun. rewrite Htruthy in Hrun. simpl in Hrun.
  injection Hrun as <-. simpl.
  exists k', ks. split; [exact Hkeys|].
  rewrite timestamp_fromtimestamp. reflexivity.
Qed.

Lemma refresh_chain_claims name sid sct l :
  sid ≠ 0 →
  ∀ iat (k : Key) algorithm,
    let t := jwt_encode (refresh_claims (JStr name) (JInt sid) iat sct) k
               algorithm in
    refresh_chain t l →
    chain_claims (JStr name) (JInt sid) sct t l.
Proof.
  intros Hsid. induction l as [|r l IH]; intros iat k algorithm t Hchain;
    [exact I|].
  destruct Hchain as [Hrun Hrest].
  destruct (refresh_rotation name sid iat sct k algorithm r Hsid Hrun)
    as (k' & ks & Hkeys & Htok).
  split.
  - exists k', ks. split; [exact Hkeys | exact Htok].
  - fold t in Htok. rewrite Htok in Hrest |- *.
    apply IH. exact Hrest.
Qed.

(** C2: along any chain of successful refresh calls that starts from the
    refresh token of a login, every derived refresh token carries the "sub",
    the "sid" and the "sct" of the login's token (a version-4 UUID and the
    login's own "iat"), and its "iat" is the time of its rotation: the claims
    of a derived token are those of the login's token with "iat" replaced. *)
Theorem refresh_chain_invariant form_data authenticator s w tokens0 w0 l :
  login_for_access_token form_data authenticator s w = (Ok tokens0, w0) →
  refresh_chain (refresh_token tokens0) l →
  ∃ name sid iat0 k0,
    refresh_token tokens0
    = jwt_encode (refresh_claims (JStr name) (JInt sid) iat0 iat0) k0 ALGORITHM
    ∧ sid = uuid_v4_int (os_urandom w (urandom_reads w))
    ∧ chain_claims (JStr name) (JInt sid) iat0 (refresh_token tokens0) l
    ∧ (∀ iat,
         refresh_claims (JStr name) (JInt sid) iat iat0
         = <["iat" := JFloat iat]>
             (refresh_claims (JStr name) (JInt sid) iat0 iat0)).
Proof.
  intros Hlogin Hchain.
  destruct (login_success_inv _ _ _ _ _ _ Hlogin)
    as (a & name & k0 & ks & -> & Hauth & Hname & Hkeys).
  destruct (login_issues form_data a s w name k0 ks Hauth Hname Hkeys)
    as (w' & Hlogin' & _).
  rewrite Hlogin' in Hlogin. injection Hlogin as <- _.
  simpl in Hchain |- *.
  exists name, (uuid_v4_int (os_urandom w (urandom_reads w))),
    (timestamp (utc_clock w (S (clock_reads w)))), k0.
  split; [reflexivity|]. split; [reflexivity|]. split.
  - apply refresh_chain_claims; [apply uuid_v4_int_nonzero | exact Hchain].
  - intros iat. unfold refresh_claims.
    rewrite (insert_insert_ne _ "iat" "sct") by discriminate.
    rewrite (insert_insert_ne _ "iat" "sid") by discriminate.
    rewrite insert_insert_eq. reflexivity.
Qed.

(** *** Further properties of decoding and of principal resolution *)

(** X1: a payload that [decode_token] returns has the expected type, and was
    verified by a key of the list, the first one whose attempt did not raise a
    plain [JWTError]. *)
Theorem decode_token_sound (t : Token) keys expected_type w payload w' :
  decode_token t keys expected_type w = (Ok payload, w') →
  payload !! "type" = Some (JStr expected_type)
  ∧ ∃ pre k post w1,
      keys = pre ++ k :: post
      ∧ key_mismatches t pre w w1
      ∧ jwt_decode t k [ALGORITHM] w1 = (Ok payload, w').
Proof.
  intros Hdec. split; [eapply decode_token_type, Hdec|].
  destruct (decode_with_keys_cases t keys w)
    as [[w1 Hm]|(pre & k & post & w1 & r & w2 & -> & Hm & Hk & Hr)].
  - rewrite <- (app_nil_r keys) in Hdec.
    rewrite (decode_token_skip t keys [] expected_type w w1 Hm) in Hdec.
    discriminate Hdec.
  - exists pre, k, post, w1. split; [reflexivity|]. split; [exact Hm|].
    rewrite (decode_token_skip t pre (k :: post) expected_type w w1 Hm) in Hdec.
    unfold decode_token, bind in Hdec. simpl in Hdec. rewrite Hk in Hdec.
    destruct r as [p|e].
    + case_decide; [|discriminate Hdec]. injection Hdec as <- <-. exact Hk.
    + destruct e; try discriminate Hdec. contradiction.
Qed.

(** X2: with an empty key list nothing decodes: [decode_token], [refresh] and
    a bearer token at [get_current_user] fail with 401 "Could not validate
    credentials" and leave the state as it is; a login that the authenticator
    accepts raises [IndexError] and issues no token. *)
Theorem empty_key_list (t : Token) s w :
  secret_keys s = [] →
  (∀ expected_type,
     decode_token t [] expected_type w = (Raise credentials_exception, w))
  ∧ refresh t s w = (Raise credentials_exception, w)
  ∧ (∀ request has authenticator,
       ¬ (authenticator = None ∧ has = true) →
       get_current_user request (Some t) has s authenticator w
       = (Raise credentials_exception, w))
  ∧ (∀ form_data a,
       not_username
         (authenticate a (username form_data) (password form_data)) = false →
       login_for_access_token form_data (Some a) s w = (Raise IndexError, w)).
Proof.
  intros Hkeys. split; [reflexivity|]. split; [|split].
  - unfold refresh, bind at 1. rewrite Hkeys. reflexivity.
  - intros request has authenticator Hn.
    rewrite get_current_user_no_admin by exact Hn. rewrite Hkeys. reflexivity.
  - intros form_data a Hname. unfold login_for_access_token.
    rewrite Hname, Hkeys. reflexivity.
Qed.

(** X3: [get_current_user] returns the admin sentinel exactly when no
    authenticator is configured and the API-key check succeeded, and the
    public sentinel exactly when that is not the case, no bearer token is
    present and anonymous access is allowed: a request that presents a
    bearer token never resolves to the public sentinel. *)
Theorem sentinel_iff request token has s authenticator w :
  (run (get_current_user request token has s authenticator) w
   = Ok (Special admin)
   ↔ authenticator = None ∧ has = true)
  ∧ (run (get_current_user request token has s authenticator) w
     = Ok (Special public)
     ↔ ¬ (authenticator = None ∧ has = true)
       ∧ token = None ∧ allow_anonymous_access s = true).
Proof.
  unfold run.
  destruct (decide (authenticator = None ∧ has = true)) as [[-> ->]|Hn].
  - rewrite get_current_user_admin. simpl. split.
    + split; [intros _; split; reflexivity | reflexivity].
    + split; [discriminate|]. intros (Hn & _). exfalso. apply Hn.
      split; reflexivity.
  - rewrite get_current_user_no_admin by exact Hn.
    destruct token as [t|].
    + destruct (decode_token t (secret_keys s) "access" w) as [[p|e] w1];
        simpl; split;
        try (split; [discriminate | contradiction]);
        (split; [discriminate | intros (_ & Ht & _); discriminate Ht]).
    + destruct (allow_anonymous_access s); simpl.
      * split; [split; [discriminate | contradiction]|].
        split; [intros _; repeat split; exact Hn | reflexivity].
      * split; [split; [discriminate | contradiction]|].
        split; [discriminate | intros (_ & _ & Hf); discriminate Hf].
Qed.

(** *** Further properties of refresh *)

(** X4: a verified refresh-typed payload that lacks a claim makes [refresh]
    raise an error that is not an HTTP error, and no token is issued: without
    "iat", [KeyError] on "iat"; with an "iat" that is not a number,
    [TypeError]; and, for a token whose age is a duration within the
    refresh-token max age and no session max age configured, without "sct",
    [KeyError] on "sct": the claim is needed also when no session age is
    enforced. *)
Theorem refresh_missing_claims (t : Token) s w payload w1 :
  decode_token t (secret_keys s) "refresh" w = (Ok payload, w1) →
  let now := timestamp (utc_clock w1 (clock_reads w1)) in
  let w2 := snd (utcnow w1) in
  (payload !! "iat" = None → refresh t s w = (Raise (KeyError "iat"), w2))
  ∧ (∀ v, payload !! "iat" = Some v → seconds v = None →
       refresh t s w = (Raise TypeError, w2))
  ∧ (∀ v iat sub sid,
       payload !! "iat" = Some v → seconds v = Some iat →
       timedelta_in_range (now - iat) = true →
       now - iat ≤ refresh_token_max_age s →
       session_max_age s = None →
       payload !! "sub" = Some sub →
       payload !! "sid" = Some sid →
       payload !! "sct" = None →
       refresh t s w = (Raise (KeyError "sct"), w2)).
Proof.
  intros Hdec now w2. split; [|split].
  - intros Hiat. unfold refresh, bind at 1. rewrite Hdec.
    unfold bind at 1. simpl. unfold bind at 1, getitem at 1.
    rewrite Hiat. reflexivity.
  - intros v Hiat Hv. unfold refresh, bind at 1. rewrite Hdec.
    unfold bind at 1. simpl. unfold bind at 1, getitem at 1.
    rewrite Hiat. simpl. unfold bind at 1, number at 1. rewrite Hv.
    reflexivity.
  - intros v iat sub sid Hiat Hv Hrange Hyoung Hsess Hsub Hsid Hsct.
    unfold refresh, bind at 1. rewrite Hdec.
    unfold bind at 1. simpl. unfold bind at 1, getitem at 1.
    rewrite Hiat. simpl. unfold bind at 1, number at 1. rewrite Hv. simpl.
    fold now. unfold bind at 1, timedelta_seconds at 1. rewrite Hrange.
    simpl.
    destruct (Z.ltb_spec (refresh_token_max_age s) (now - iat)); [lia|].
    rewrite Hsess. unfold bind at 1. simpl.
    unfold bind at 1, getitem at 1. rewrite Hsub. simpl.
    unfold bind at 1, getitem at 1. rewrite Hsid. simpl.
    unfold bind at 1, getitem at 1. rewrite Hsct. reflexivity.
Qed.


(** *** The tokens of a login *)

(** A verified payload carries the string claims that were encoded. *)
Hypothesis jwt_decode_strings :
  ∀ claims (k k' : Key) algorithm algorithms w payload w',
    jwt_decode (jwt_encode claims k algorithm) k' algorithms w
    = (Ok payload, w') →
    ∀ name v, claims !! name = Some (JStr v) → payload !! name = Some (JStr v).

Lemma login_tokens form_data authenticator s w tokens w0 :
  login_for_access_token form_data authenticator s w = (Ok tokens, w0) →
  ∃ a name k0 ks,
    authenticator = Some a
    ∧ authenticate a (username form_data) (password form_data) = Some name
    ∧ secret_keys s = k0 :: ks
    ∧ access_token tokens
      = jwt_encode
          (access_claims (JStr name)
             (utc_clock w (clock_reads w) + access_token_max_age s))
          k0 ALGORITHM
    ∧ refresh_token tokens
      = jwt_encode
          (refresh_claims (JStr name)
             (JInt (uuid_v4_int (os_urandom w (urandom_reads w))))
             (timestamp (utc_clock w (S (clock_reads w))))
             (timestamp (utc_clock w (S (clock_reads w)))))
          k0 ALGORITHM.
Proof.
  intros Hlogin.
  destruct (login_success_inv _ _ _ _ _ _ Hlogin)
    as (a & name & k0 & ks & -> & Hauth & Hname & Hkeys).
  destruct (login_issues form_data a s w name k0 ks Hauth Hname Hkeys)
    as (w' & Hlogin' & _).
  rewrite Hlogin' in Hlogin. injection Hlogin as <- _.
  exists a, name, k0, ks. repeat split; assumption.
Qed.

Lemma decode_token_verified_by (t : Token) keys expected_type w payload w' :
  decode_token t keys expected_type w = (Ok payload, w') →
  ∃ k w0, k ∈ keys ∧ jwt_decode t k [ALGORITHM] w0 = (Ok payload, w').
Proof.
  intros Hdec. unfold decode_token, bind in Hdec.
  destruct (decode_with_keys t keys w) as [[p|e] w1] eqn:Hkeys;
    [|discriminate Hdec].
  case_decide; [|discriminate Hdec]. injection Hdec as <- <-.
  eapply decode_with_keys_verified, Hkeys.
Qed.

(** X6: the access token of a login, presented as bearer token, resolves to
    the username the authenticator returned and to no other principal,
    whatever the settings and the state of the later request (the admin
    branch, which ignores the token, apart). *)
Theorem login_access_token_principal form_data authenticator s w tokens w0 :
  login_for_access_token form_data authenticator s w = (Ok tokens, w0) →
  ∃ a name,
    authenticator = Some a
    ∧ authenticate a (username form_data) (password form_data) = Some name
    ∧ ∀ request has s' authenticator' w' u,
        ¬ (authenticator' = None ∧ has = true) →
        run (get_current_user request (Some (access_token tokens)) has s'
               authenticator') w' = Ok u →
        u = Named (Some (JStr name)).
Proof.
  intros Hlogin.
  destruct (login_tokens _ _ _ _ _ _ Hlogin)
    as (a & name & k0 & ks & -> & Hauth & _ & Haccess & _).
  exists a, name. split; [reflexivity|]. split; [exact Hauth|].
  intros request has s' authenticator' w' u Hn Hu.
  unfold run in Hu. rewrite get_current_user_no_admin in Hu by exact Hn.
  destruct (decode_token (access_token tokens) (secret_keys s') "access" w')
    as [[payload|e] w1] eqn:Hdec; simpl in Hu; [|discriminate Hu].
  injection Hu as <-.
  destruct (decode_token_verified_by _ _ _ _ _ _ Hdec) as (k & w2 & _ & Hk).
  rewrite Haccess in Hk.
  rewrite (jwt_decode_strings _ _ _ _ _ _ _ _ Hk "sub" name); [reflexivity|].
  unfold access_claims. by simplify_map_eq.
Qed.

(** X7: the two tokens of a login are not interchangeable: its refresh token
    never authenticates a protected request as bearer token, and its access
    token is never accepted by [refresh], whatever the settings and the state
    of the later request. *)
Theorem login_tokens_not_interchangeable form_data authenticator s w tokens w0 :
  login_for_access_token form_data authenticator s w = (Ok tokens, w0) →
  (∀ request has s' authenticator' w',
     ¬ (authenticator' = None ∧ has = true) →
     ∃ e w'',
       get_current_user request (Some (refresh_token tokens)) has s'
         authenticator' w' = (Raise e, w''))
  ∧ (∀ s' w',
       ∃ e w'', refresh (access_token tokens) s' w' = (Raise e, w'')).
Proof.
  intros Hlogin.
  destruct (login_tokens _ _ _ _ _ _ Hlogin)
    as (a & name & k0 & ks & -> & Hauth & _ & Haccess & Hrefresh).
  split.
  - intros request has s' authenticator' w' Hn.
    rewrite get_current_user_no_admin by exact Hn.
    destruct (decode_token (refresh_token tokens) (secret_keys s') "access" w')
      as [[payload|e] w1] eqn:Hdec; [|eauto].
    exfalso.
    pose proof (decode_token_type _ _ _ _ _ _ Hdec) as Hty.
    destruct (decode_token_verified_by _ _ _ _ _ _ Hdec) as (k & w2 & _ & Hk).
    rewrite Hrefresh in Hk.
    rewrite (jwt_decode_strings _ _ _ _ _ _ _ _ Hk "type" "refresh") in Hty;
      [discriminate Hty|].
    apply refresh_claims_lookup.
  - intros s' w'. unfold refresh, bind at 1.
    destruct (decode_token (access_token tokens) (secret_keys s') "refresh" w')
      as [[payload|e] w1] eqn:Hdec; [|eauto].
    exfalso.
    pose proof (decode_token_type _ _ _ _ _ _ Hdec) as Hty.
    destruct (decode_token_verified_by _ _ _ _ _ _ Hdec) as (k & w2 & _ & Hk).
    rewrite Haccess in Hk.
    rewrite (jwt_decode_strings _ _ _ _ _ _ _ _ Hk "type" "access") in Hty;
      [discriminate Hty|].
    unfold access_claims. by simplify_map_eq.
Qed.

(** *** Refresh after a login, across a key rotation *)

(** The signing key verifies a refresh token as this module issues it; its
    claims hold no expiry, so the clock is not consulted and nothing is
    touched. *)
Hypothesis jwt_decode_refresh_claims :
  ∀ name sid iat sct (k : Key) w,
    jwt_decode
      (jwt_encode (refresh_claims (JStr name) (JInt sid) iat sct) k ALGORITHM)
      k [ALGORITHM] w
    = (Ok (refresh_claims (JStr name) (JInt sid) iat sct), w).





(** X9: once the key that signed it is no longer in the key list, the refresh
    token of a login is rejected by [refresh] with 401 "Could not validate
    credentials", whatever its age. *)
Theorem refresh_after_key_removal form_data authenticator s w tokens w0 s' w' :
  login_for_access_token form_data authenticator s w = (Ok tokens, w0) →
  ∃ k0 ks,
    secret_keys s = k0 :: ks
    ∧ (k0 ∉ secret_keys s' →
       refresh (refresh_token tokens) s' w'
       = (Raise credentials_exception, w')).
Proof.
  intros Hlogin.
  destruct (login_tokens _ _ _ _ _ _ Hlogin)
    as (a & name & k0 & ks & -> & Hauth & Hkeys & _ & Hrefresh).
  exists k0, ks. split; [exact Hkeys|]. intros Hnot.
  rewrite Hrefresh. unfold refresh, bind at 1.
  rewrite <- (app_nil_r (secret_keys s')).
  rewrite (decode_token_skip _ (secret_keys s') [] "refresh" w' w')
    by apply key_mismatches_other_keys, Hnot.
  reflexivity.
Qed.

(** *** Ages along a refresh chain *)

Lemma refresh_rotation_ages name sid iat sct (k : Key) algorithm (r : Rotation) :
  let t := jwt_encode (refresh_claims (JStr name) (JInt sid) iat sct) k
             algorithm in
  run (refresh t (rot_settings r)) (rot_world r) = Ok (rot_tokens r) →
  rotation_now t r - iat ≤ refresh_token_max_age (rot_settings r)
  ∧ ∀ m, session_max_age (rot_settings r) = Some m →
         rotation_now t r - sct ≤ m.
Proof.
  intros t Hrun. unfold rotation_now.
  destruct r as [s w tokens]. simpl in *.
  destruct (decode_token t (secret_keys s) "refresh" w) as [[payload|e] w1]
    eqn:Hdec.
  2:{ unfold run, refresh, bind in Hrun. rewrite Hdec in Hrun.
      discriminate Hrun. }
  assert (payload = refresh_claims (JStr name) (JInt sid) iat sct) as ->.
  { eapply decode_token_claims; [apply refresh_claims_json | exact Hdec]. }
  destruct (refresh_claims_lookup (JStr name) (JInt sid) iat sct)
    as (_ & _ & Hiat & Hsct & _).
  destruct (refresh_succeeded t s w _ w1 (JFloat iat) iat (JFloat sct) sct
              tokens Hdec Hiat eq_refl Hsct eq_refl Hrun)
    as (_ & Hyoung & Hsess & _).
  simpl. split; [exact Hyoung|]. intros m Hm. exact (proj2 (Hsess m Hm)).
Qed.

Lemma refresh_chain_ages name sid sct l :
  sid ≠ 0 →
  ∀ iat (k : Key) algorithm,
    let t := jwt_encode (refresh_claims (JStr name) (JInt sid) iat sct) k
               algorithm in
    refresh_chain t l →
    chain_ages iat sct t l.
Proof.
  intros Hsid. induction l as [|r l IH]; intros iat k algorithm t Hchain;
    [exact I|].
  destruct Hchain as [Hrun Hrest].
  destruct (refresh_rotation name sid iat sct k algorithm r Hsid Hrun)
    as (k' & ks & Hkeys & Htok).
  split.
  - exact (refresh_rotation_ages name sid iat sct k algorithm r Hrun).
  - fold t in Htok. rewrite Htok in Hrest |- *.
    apply IH. exact Hrest.
Qed.

(** X10: along a chain of successful refresh calls that starts from the
    refresh token of a login, every call ran no later than the refresh-token
    max age after the token it was given was issued, and, when its settings
    have a session max age, no later than that age after the login: rotating
    the token does not extend the session. *)
Theorem refresh_chain_within_session form_data authenticator s w tokens0 w0 l :
  login_for_access_token form_data authenticator s w = (Ok tokens0, w0) →
  refresh_chain (refresh_token tokens0) l →
  chain_ages (timestamp (utc_clock w (S (clock_reads w))))
    (timestamp (utc_clock w (S (clock_reads w)))) (refresh_token tokens0) l.
Proof.
  intros Hlogin Hchain.
  destruct (login_tokens _ _ _ _ _ _ Hlogin)
    as (a & name & k0 & ks & -> & Hauth & Hkeys & _ & Hrefresh).
  rewrite Hrefresh in Hchain |- *.
  apply refresh_chain_ages; [apply uuid_v4_int_nonzero | exact Hchain].
Qed.

(** *** The API-key cookie *)

(** X11: the cookie that [get_current_user] schedules is the one the cookie
    channel reads and the one [logout] deletes: in the admin branch nothing
    but the pair of [API_KEY_COOKIE_NAME] and the configured key is added to
    the cookies to set; a later request that carries a non-empty configured
    key in that cookie, and nothing in the query parameter and the header,
    resolves to the admin sentinel and schedules nothing; and [logout]
    deletes that cookie and the CSRF cookie, in this order, and nothing
    else. *)
Theorem api_key_cookie_round_trip s :
  (∀ request token w c,
     c ∈ cookies_to_set (snd (get_current_user request token true s None w)) →
     c ∈ cookies_to_set w ∨ c = (API_KEY_COOKIE_NAME, single_user_api_key s))
  ∧ (∀ request token w v,
       single_user_api_key s = Some v →
       v ≠ "" →
       cookies request !! API_KEY_COOKIE_NAME = Some v →
       query_params request !! "api_key" = None →
       headers request !! API_KEY_HEADER_NAME = None →
       current_user_dependency request token s None w
       = (Ok (Special admin), w))
  ∧ (∀ response,
       logout response
       = (∅, mkResponse (cookie_ops response
                         ++ [DeleteCookie API_KEY_COOKIE_NAME;
                             DeleteCookie CSRF_COOKIE_NAME]))).
Proof.
  split; [|split].
  - intros request token w c. rewrite get_current_user_admin. simpl.
    case_decide; simpl; [left; assumption|].
    intros [Hc|Hc%list_elem_of_singleton]%elem_of_app; [left | right];
      assumption.
  - intros request token w v Hkey Hv Hcookie Hquery Hheader.
    unfold current_user_dependency, bind.
    rewrite check_single_user_api_key_first.
    unfold api_key_query, api_key_header, api_key_cookie.
    rewrite Hquery, Hheader. simpl.
    change "tiled_api_key" with API_KEY_COOKIE_NAME. rewrite Hcookie. simpl.
    destruct (String.eqb_spec v ""); [contradiction|]. simpl.
    rewrite decide_True by (symmetry; exact Hkey).
    rewrite get_current_user_admin.
    rewrite decide_True by (rewrite Hcookie; symmetry; exact Hkey).
    reflexivity.
  - intros response. unfold logout, delete_cookie. simpl.
    rewrite <- app_assoc. reflexivity.
Qed.

End Properties.

(** ** The symbolic runtime satisfies the assumptions *)

Lemma sym_decode_other_key :
  ∀ claims (k k' : string) algorithm algorithms w,
    k' ≠ k →
    sym_decode (sym_encode claims k algorithm) k' algorithms w
    = (Raise JWTError, w).
Proof.
  intros claims k k' algorithm algorithms w Hne.
  unfold sym_decode, sym_encode.
  rewrite bool_decide_eq_false_2 by congruence. reflexivity.
Qed.

Lemma sym_timestamp_fromtimestamp :
  ∀ t, timestamp (R := symbolic) (fromtimestamp (Runtime := symbolic) t) = t.
Proof.
  intros t. unfold timestamp, DAY. cbn [utcoffset fromtimestamp symbolic]. lia.
Qed.

Lemma intdate_json name claims :
  (∀ key us, claims !! key ≠ Some (JDatetime us)) →
  intdate name claims = claims.
Proof.
  intros Hjson. unfold intdate.
  destruct (claims !! name) as [[]|] eqn:Hname; try reflexivity.
  exfalso. eapply Hjson, Hname.
Qed.

Lemma sym_decode_claims :
  ∀ claims (k k' : string) algorithm algorithms w payload w',
    (∀ name us, claims !! name ≠ Some (JDatetime us)) →
    sym_decode (sym_encode claims k algorithm) k' algorithms w
    = (Ok payload, w') →
    payload = claims.
Proof.
  intros claims k k' algorithm algorithms w payload w' Hjson.
  unfold sym_encode.
  rewrite (intdate_json "exp" claims Hjson).
  rewrite (intdate_json "iat" claims Hjson).
  rewrite (intdate_json "nbf" claims Hjson).
  unfold sym_decode.
  destruct (bool_decide (k = k') && bool_decide (algorithm ∈ algorithms));
    [|discriminate].
  destruct (claims !! "exp") as [v|]; [|intros [= <- _]; reflexivity].
  unfold bind, number. destruct (seconds v) as [exp|]; [|discriminate].
  simpl. destruct (_ <? _); [discriminate|].
  intros [= <- _]. reflexivity.
Qed.

Lemma intdate_strings key claims name v :
  claims !! name = Some (JStr v) →
  intdate key claims !! name = Some (JStr v).
Proof.
  intros Hname. unfold intdate.
  destruct (claims !! key) as [[]|] eqn:Hkey; try exact Hname.
  rewrite lookup_insert_ne; [exact Hname|].
  intros ->. rewrite Hname in Hkey. discriminate Hkey.
Qed.

Lemma sym_decode_strings :
  ∀ claims (k k' : string) algorithm algorithms w payload w',
    sym_decode (sym_encode claims k algorithm) k' algorithms w
    = (Ok payload, w') →
    ∀ name v, claims !! name = Some (JStr v) → payload !! name = Some (JStr v).
Proof.
  intros claims k k' algorithm algorithms w payload w' Hdec name v Hname.
  assert (Hpayload : payload = intdate "nbf" (intdate "iat" (intdate "exp" claims))).
  { unfold sym_decode, sym_encode in Hdec.
    destruct (bool_decide (k = k') && bool_decide (algorithm ∈ algorithms));
      [|discriminate Hdec].
    destruct (_ !! "exp") as [exp|]; [|injection Hdec as <- _; reflexivity].
    unfold bind, number in Hdec.
    destruct (seconds exp) as [us|]; [|discriminate Hdec].
    simpl in Hdec. destruct (_ <? _); [discriminate Hdec|].
    injection Hdec as <- _. reflexivity. }
  rewrite Hpayload. do 3 apply intdate_strings. exact Hname.
Qed.


(** ** The claim on mismatching API keys, as first stated *)

(** C9 as stated fails: a request whose query parameter carries the
    configured key and whose header carries another value is not rejected; it
    resolves to the admin sentinel. *)
Lemma later_mismatch_not_rejected :
  ¬ (∀ (R : Runtime) (request : Request) (token : option Token)
       (s : Settings R) (authenticator : option Authenticator) (w : World)
       (v : string),
       Some v ∈ [api_key_query request; api_key_header request;
                 api_key_cookie request] →
       Some v ≠ single_user_api_key s →
       run (current_user_dependency request token s authenticator) w
       = Raise invalid_api_key).
Proof.
  intros Hclaim.
  specialize (Hclaim symbolic key_then_wrong None demo_settings None
                (world_at 0) "wrong").
  assert (Hin : Some "wrong"
                ∈ [api_key_query key_then_wrong; api_key_header key_then_wrong;
                   api_key_cookie key_then_wrong]).
  { right. left. }
  assert (Hne : Some "wrong" ≠ single_user_api_key demo_settings)
    by discriminate.
  specialize (Hclaim Hin Hne).
  assert (Hrun : run (current_user_dependency (R := symbolic) key_then_wrong
                        None demo_settings None) (world_at 0)
                 = Ok (Special admin)) by reflexivity.
  rewrite Hrun in Hclaim. discriminate Hclaim.
Qed.

(** ** The claim on refresh, as first stated *)


(** A token with every claim, issued far in the future: its age is no
    timedelta, and [refresh] raises [OverflowError]. *)
Lemma refresh_far_iat_overflows :
  decode_token (R := symbolic) far_iat_token (secret_keys demo_settings)
    "refresh" (world_at 0)
  = (Ok (refresh_claims (JStr "alice") (JInt demo_sid) far_iat demo_iat),
     world_at 0)
  ∧ run (refresh (R := symbolic) far_iat_token demo_settings) (world_at 0)
    = Raise OverflowError.
Proof. split; reflexivity. Qed.

(** ** The claim on the forms of a principal, as first stated *)


(** ** Runs on concrete inputs *)

(** A wrong value in the query parameter, the configured key in the header,
    an authenticator and a bearer token. *)
Lemma first_mismatch_rejected_witness :
  first_present (api_key_query wrong_then_key) (api_key_header wrong_then_key)
    (api_key_cookie wrong_then_key) = Some "wrong"
  ∧ Some "wrong" ≠ single_user_api_key demo_settings
  ∧ current_user_dependency (R := symbolic) wrong_then_key
      (Some (access_token demo_tokens0)) demo_settings (Some alice_only)
      (world_at 0)
    = (Raise invalid_api_key, world_at 0).
Proof.
  assert (H1 : first_present (api_key_query wrong_then_key)
                 (api_key_header wrong_then_key)
                 (api_key_cookie wrong_then_key) = Some "wrong")
    by reflexivity.
  assert (H2 : Some "wrong" ≠ single_user_api_key demo_settings)
    by discriminate.
  split; [exact H1|]. split; [exact H2|].
  exact (first_mismatch_rejected (R := symbolic) wrong_then_key
           (Some (access_token demo_tokens0)) demo_settings (Some alice_only)
           (world_at 0) "wrong" H1 H2).
Defined.


(** The refresh token of the login, signed with "k-new", against key lists
    with and without that key; the access token, after its expiry. *)
Lemma decode_token_key_order_witness :
  decode_token (R := symbolic) (refresh_token demo_tokens0)
    ["k-next"; "k-new"] "refresh" (world_at 0)
  = (Ok demo_claims, world_at 0)
  ∧ decode_token (R := symbolic) (refresh_token demo_tokens0)
      ["k-next"] "refresh" (world_at 0)
    = (Raise credentials_exception, world_at 0)
  ∧ decode_token (R := symbolic) (access_token demo_tokens0)
      (["k-next"] ++ "k-new" :: ["k-old"]) "access" (world_at 901)
    = (Raise access_token_expired, snd (utcnow (world_at 901))).
Proof.
  destruct (decode_token_key_order (R := symbolic) sym_decode_other_key
              (refresh_token demo_tokens0) "refresh" (world_at 0))
    as (_ & _ & Hkey).
  destruct (Hkey demo_claims "k-new" "HS256" eq_refl) as [Hin Hout].
  split; [apply Hin; [right; left | reflexivity | reflexivity]|].
  split; [apply Hout; intros Hk; apply list_elem_of_In in Hk;
          destruct Hk as [Hk|[]]; discriminate Hk|].
  destruct (decode_token_key_order (R := symbolic) sym_decode_other_key
              (access_token demo_tokens0) "access" (world_at 901))
    as (Hpre & _ & _).
  destruct (Hpre ["k-next"] (world_at 901)) as (_ & Hexp & _).
  - econstructor; [|constructor]. reflexivity.
  - apply Hexp. reflexivity.
Defined.

(** The refresh token of the login, presented as bearer token. *)
Lemma decode_token_type_confusion_witness :
  decode_with_keys (R := symbolic) (refresh_token demo_tokens0)
    ["k-new"; "k-old"] (world_at 0) = (Ok demo_claims, world_at 0)
  ∧ get_current_user (R := symbolic) no_key
      (Some (refresh_token demo_tokens0)) false demo_settings
      (Some alice_only) (world_at 0)
    = (Raise credentials_exception, world_at 0).
Proof.
  assert (H : decode_with_keys (R := symbolic) (refresh_token demo_tokens0)
                ["k-new"; "k-old"] (world_at 0) = (Ok demo_claims, world_at 0))
    by reflexivity.
  split; [exact H|].
  destruct (decode_token_type_confusion (R := symbolic)
              (refresh_token demo_tokens0) ["k-new"; "k-old"] demo_claims
              (world_at 0) (world_at 0) H) as (_ & Hbearer & _).
  apply Hbearer.
  - reflexivity.
  - reflexivity.
  - intros [Hnone _]. discriminate Hnone.
Defined.


(** The login followed by the two refresh calls. *)
Lemma refresh_chain_invariant_witness :
  login_for_access_token (R := symbolic) demo_form (Some alice_only)
    demo_settings (world_at 0)
  = (Ok demo_tokens0,
     snd (login_for_access_token (R := symbolic) demo_form (Some alice_only)
            demo_settings (world_at 0)))
  ∧ refresh_chain (R := symbolic) (refresh_token demo_tokens0)
      [demo_rotation1; demo_rotation2]
  ∧ ∃ name sid iat0 k0,
      refresh_token demo_tokens0
      = jwt_encode (Runtime := symbolic)
          (refresh_claims (JStr name) (JInt sid) iat0 iat0) k0 ALGORITHM
      ∧ chain_claims (R := symbolic) (JStr name) (JInt sid) iat0
          (refresh_token demo_tokens0) [demo_rotation1; demo_rotation2].
Proof.
  assert (Hlogin : login_for_access_token (R := symbolic) demo_form
                     (Some alice_only) demo_settings (world_at 0)
                   = (Ok demo_tokens0,
                      snd (login_for_access_token (R := symbolic) demo_form
                             (Some alice_only) demo_settings (world_at 0))))
    by reflexivity.
  assert (Hchain : refresh_chain (R := symbolic) (refresh_token demo_tokens0)
                     [demo_rotation1; demo_rotation2]).
  { split; [reflexivity|]. split; [reflexivity | exact I]. }
  split; [exact Hlogin|]. split; [exact Hchain|].
  destruct (refresh_chain_invariant (R := symbolic)
              sym_timestamp_fromtimestamp sym_decode_claims demo_form
              (Some alice_only) demo_settings (world_at 0) demo_tokens0 _
              [demo_rotation1; demo_rotation2] Hlogin Hchain)
    as (name & sid & iat0 & k0 & Htok & _ & Hclaims & _).
  exists name, sid, iat0, k0. split; [exact Htok | exact Hclaims].
Defined.

(** A wrong value in the query parameter, the configured key in the header
    and in the cookie. *)
Lemma check_single_user_api_key_priority_witness :
  Some "wrong" ≠ single_user_api_key demo_settings
  ∧ check_single_user_api_key (R := symbolic) (Some "wrong") (Some "s3cr3t")
      (Some "s3cr3t") demo_settings (world_at 0)
    = (Raise invalid_api_key, world_at 0).
Proof.
  assert (Hne : Some "wrong" ≠ single_user_api_key demo_settings)
    by discriminate.
  split; [exact Hne|].
  destruct (check_single_user_api_key_priority (R := symbolic) None None None
              demo_settings (world_at 0)) as (_ & Hmis & _).
  exact (Hmis "wrong" Hne).
Defined.


(** The configured key in the query parameter, no authenticator. *)
Lemma get_current_user_case_split_witness :
  run (get_current_user (R := symbolic) key_then_wrong None true demo_settings
         None) (world_at 0) = Ok (Special admin)
  ∧ cookies_to_set
      (snd (get_current_user (R := symbolic) key_then_wrong None true
              demo_settings None (world_at 0)))
    = [(API_KEY_COOKIE_NAME, Some "s3cr3t")].
Proof.
  destruct (get_current_user_case_split (R := symbolic) key_then_wrong None
              true demo_settings None (world_at 0)) as (Hadmin & _).
  destruct (Hadmin eq_refl eq_refl) as [Hu Hcookies].
  split; [exact Hu|]. rewrite Hcookies. reflexivity.
Defined.

(** The configured key in the query parameter, with an authenticator and
    the access token of the login. *)
Lemma api_key_ignored_with_authenticator_witness :
  first_present (api_key_query key_then_wrong) (api_key_header key_then_wrong)
    (api_key_cookie key_then_wrong) = Some "s3cr3t"
  ∧ run (current_user_dependency (R := symbolic) key_then_wrong
           (Some (access_token demo_tokens0)) demo_settings (Some alice_only))
      (world_at 0)
    ≠ Ok (Special admin).
Proof.
  assert (Hv : first_present (api_key_query key_then_wrong)
                 (api_key_header key_then_wrong)
                 (api_key_cookie key_then_wrong) = Some "s3cr3t")
    by reflexivity.
  split; [exact Hv|].
  destruct (api_key_ignored_with_authenticator (R := symbolic) key_then_wrong
              (Some (access_token demo_tokens0)) true demo_settings alice_only
              (world_at 0)) as (_ & _ & _ & Hdep).
  exact (proj2 (Hdep "s3cr3t" Hv eq_refl)).
Defined.

(** ** Runs of the further properties *)

(** The refresh token of the login against the rotated key list. *)
Lemma decode_token_sound_witness :
  decode_token (R := symbolic) (refresh_token demo_tokens0)
    ["k-next"; "k-new"] "refresh" (world_at 0)
  = (Ok demo_claims, world_at 0)
  ∧ demo_claims !! "type" = Some (JStr "refresh")
  ∧ ∃ pre k post w1,
      ["k-next"; "k-new"] = pre ++ k :: post
      ∧ key_mismatches (R := symbolic) (refresh_token demo_tokens0) pre
          (world_at 0) w1
      ∧ jwt_decode (Runtime := symbolic) (refresh_token demo_tokens0) k
          [ALGORITHM] w1 = (Ok demo_claims, world_at 0).
Proof.
  assert (H : decode_token (R := symbolic) (refresh_token demo_tokens0)
                ["k-next"; "k-new"] "refresh" (world_at 0)
              = (Ok demo_claims, world_at 0)) by reflexivity.
  split; [exact H|].
  exact (decode_token_sound (R := symbolic) (refresh_token demo_tokens0)
           ["k-next"; "k-new"] "refresh" (world_at 0) demo_claims (world_at 0)
           H).
Defined.

(** The tokens and the form of the login, with an empty key list. *)
Lemma empty_key_list_witness :
  secret_keys keyless_settings = []
  ∧ refresh (R := symbolic) (refresh_token demo_tokens0) keyless_settings
      (world_at 0) = (Raise credentials_exception, world_at 0)
  ∧ login_for_access_token (R := symbolic) demo_form (Some alice_only)
      keyless_settings (world_at 0) = (Raise IndexError, world_at 0).
Proof.
  assert (H : secret_keys keyless_settings = []) by reflexivity.
  destruct (empty_key_list (R := symbolic) (refresh_token demo_tokens0)
              keyless_settings (world_at 0) H) as (_ & Hrefresh & _ & Hlogin).
  split; [exact H|]. split; [exact Hrefresh|].
  apply Hlogin. reflexivity.
Defined.

(** A signed refresh-typed token without "iat", and one without "sct"
    presented a minute after its issue. *)
Lemma refresh_missing_claims_witness :
  decode_token (R := symbolic) no_iat_token (secret_keys demo_settings)
    "refresh" (world_at 0)
  = (Ok (<["type" := JStr "refresh"]> {["sub" := JStr "alice"]}), world_at 0)
  ∧ refresh (R := symbolic) no_iat_token demo_settings (world_at 0)
    = (Raise (KeyError "iat"), snd (utcnow (world_at 0)))
  ∧ decode_token (R := symbolic) no_sct_token (secret_keys demo_settings)
      "refresh" (world_at 60)
    = (Ok no_sct_claims, world_at 60)
  ∧ refresh (R := symbolic) no_sct_token demo_settings (world_at 60)
    = (Raise (KeyError "sct"), snd (utcnow (world_at 60))).
Proof.
  assert (H : decode_token (R := symbolic) no_iat_token
                (secret_keys demo_settings) "refresh" (world_at 0)
              = (Ok (<["type" := JStr "refresh"]> {["sub" := JStr "alice"]}),
                 world_at 0)) by reflexivity.
  assert (H' : decode_token (R := symbolic) no_sct_token
                 (secret_keys demo_settings) "refresh" (world_at 60)
               = (Ok no_sct_claims, world_at 60)) by reflexivity.
  split; [exact H|]. split.
  - destruct (refresh_missing_claims (R := symbolic) no_iat_token
                demo_settings (world_at 0) _ (world_at 0) H) as (Hiat & _).
    apply Hiat. reflexivity.
  - split; [exact H'|].
    destruct (refresh_missing_claims (R := symbolic) no_sct_token
                demo_settings (world_at 60) _ (world_at 60) H')
      as (_ & _ & Hsct).
    apply (Hsct (JFloat demo_iat) demo_iat (JStr "alice") (JInt demo_sid)).
    + reflexivity.
    + reflexivity.
    + reflexivity.
    + vm_compute. discriminate.
    + reflexivity.
    + reflexivity.
    + reflexivity.
    + reflexivity.
Defined.


(** The access token of the login, presented as bearer token. *)
Lemma login_access_token_principal_witness :
  login_for_access_token (R := symbolic) demo_form (Some alice_only)
    demo_settings (world_at 0)
  = (Ok demo_tokens0,
     snd (login_for_access_token (R := symbolic) demo_form (Some alice_only)
            demo_settings (world_at 0)))
  ∧ run (get_current_user (R := symbolic) no_key
           (Some (access_token demo_tokens0)) false rotated_settings
           (Some alice_only)) (world_at 60)
    = Ok (Named (Some (JStr "alice")))
  ∧ ∃ name,
      authenticate alice_only (username demo_form) (password demo_form)
      = Some name
      ∧ Named (Some (JStr "alice")) = Named (Some (JStr name)).
Proof.
  assert (Hlogin : login_for_access_token (R := symbolic) demo_form
                     (Some alice_only) demo_settings (world_at 0)
                   = (Ok demo_tokens0,
                      snd (login_for_access_token (R := symbolic) demo_form
                             (Some alice_only) demo_settings (world_at 0))))
    by reflexivity.
  assert (Hrun : run (get_current_user (R := symbolic) no_key
                        (Some (access_token demo_tokens0)) false
                        rotated_settings (Some alice_only)) (world_at 60)
                 = Ok (Named (Some (JStr "alice")))) by reflexivity.
  split; [exact Hlogin|]. split; [exact Hrun|].
  destruct (login_access_token_principal (R := symbolic) sym_decode_strings
              demo_form (Some alice_only) demo_settings (world_at 0)
              demo_tokens0 _ Hlogin) as (a & name & Ha & Hauth & Hu).
  injection Ha as <-.
  exists name. split; [exact Hauth|].
  apply (Hu no_key false rotated_settings (Some alice_only) (world_at 60));
    [intros [Hnone _]; discriminate Hnone | exact Hrun].
Defined.

(** The access token of the login, presented for a refresh. *)
Lemma login_tokens_not_interchangeable_witness :
  login_for_access_token (R := symbolic) demo_form (Some alice_only)
    demo_settings (world_at 0)
  = (Ok demo_tokens0,
     snd (login_for_access_token (R := symbolic) demo_form (Some alice_only)
            demo_settings (world_at 0)))
  ∧ ∃ e w'',
      refresh (R := symbolic) (access_token demo_tokens0) demo_settings
        (world_at 60) = (Raise e, w'').
Proof.
  assert (Hlogin : login_for_access_token (R := symbolic) demo_form
                     (Some alice_only) demo_settings (world_at 0)
                   = (Ok demo_tokens0,
                      snd (login_for_access_token (R := symbolic) demo_form
                             (Some alice_only) demo_settings (world_at 0))))
    by reflexivity.
  split; [exact Hlogin|].
  exact (proj2 (login_tokens_not_interchangeable (R := symbolic)
                  sym_decode_strings demo_form (Some alice_only)
                  demo_settings (world_at 0) demo_tokens0 _ Hlogin)
           demo_settings (world_at 60)).
Defined.


(** The refresh token of the login, after the key "k-new" was dropped. *)
Lemma refresh_after_key_removal_witness :
  login_for_access_token (R := symbolic) demo_form (Some alice_only)
    demo_settings (world_at 0)
  = (Ok demo_tokens0,
     snd (login_for_access_token (R := symbolic) demo_form (Some alice_only)
            demo_settings (world_at 0)))
  ∧ refresh (R := symbolic) (refresh_token demo_tokens0) dropped_settings
      (world_at 60) = (Raise credentials_exception, world_at 60).
Proof.
  assert (Hlogin : login_for_access_token (R := symbolic) demo_form
                     (Some alice_only) demo_settings (world_at 0)
                   = (Ok demo_tokens0,
                      snd (login_for_access_token (R := symbolic) demo_form
                             (Some alice_only) demo_settings (world_at 0))))
    by reflexivity.
  split; [exact Hlogin|].
  destruct (refresh_after_key_removal (R := symbolic) sym_decode_other_key
              demo_form (Some alice_only) demo_settings (world_at 0)
              demo_tokens0 _ dropped_settings (world_at 60) Hlogin)
    as (k0 & ks & Hkeys & Hrefresh).
  injection Hkeys as <- _.
  apply Hrefresh. intros Hin. apply list_elem_of_In in Hin.
  destruct Hin as [Hin|[]]. discriminate Hin.
Defined.

(** The login followed by the two refresh calls. *)
Lemma refresh_chain_within_session_witness :
  refresh_chain (R := symbolic) (refresh_token demo_tokens0)
    [demo_rotation1; demo_rotation2]
  ∧ chain_ages (R := symbolic) demo_iat demo_iat (refresh_token demo_tokens0)
      [demo_rotation1; demo_rotation2].
Proof.
  assert (Hlogin : login_for_access_token (R := symbolic) demo_form
                     (Some alice_only) demo_settings (world_at 0)
                   = (Ok demo_tokens0,
                      snd (login_for_access_token (R := symbolic) demo_form
                             (Some alice_only) demo_settings (world_at 0))))
    by reflexivity.
  assert (Hchain : refresh_chain (R := symbolic) (refresh_token demo_tokens0)
                     [demo_rotation1; demo_rotation2]).
  { split; [reflexivity|]. split; [reflexivity | exact I]. }
  split; [exact Hchain|].
  exact (refresh_chain_within_session (R := symbolic)
           sym_timestamp_fromtimestamp sym_decode_claims demo_form
           (Some alice_only) demo_settings (world_at 0) demo_tokens0 _
           [demo_rotation1; demo_rotation2] Hlogin Hchain).
Defined.

(** A request that carries the configured key in the cookie only. *)
Lemma api_key_cookie_round_trip_witness :
  cookies cookie_only !! API_KEY_COOKIE_NAME = Some "s3cr3t"
  ∧ current_user_dependency (R := symbolic) cookie_only None demo_settings
      None (world_at 0) = (Ok (Special admin), world_at 0).
Proof.
  assert (Hcookie : cookies cookie_only !! API_KEY_COOKIE_NAME = Some "s3cr3t")
    by reflexivity.
  split; [exact Hcookie|].
  destruct (api_key_cookie_round_trip (R := symbolic) demo_settings)
    as (_ & Hnext & _).
  apply (Hnext cookie_only None (world_at 0) "s3cr3t");
    [reflexivity | discriminate | exact Hcookie | reflexivity | reflexivity].
Defined.
